(** * PowerPulse dashboard: the load-and-resample pipeline of [Project_3.py]

    The program is a chain of pandas calls.  Each call is embedded as the
    function that pandas computes on the table it is given:

    - [pd.read_sql] over [SELECT * ... ORDER BY Datetime DESC LIMIT 10000],
    - [pd.to_datetime(..., errors="coerce")] and
      [pd.to_numeric(..., errors="coerce")], cell by cell,
    - [set_index("Datetime").resample("H")[numeric_cols].mean().reset_index()],
    - the date filter and the "Predicted" column of the dashboard page.

    Timestamps are integers (nanoseconds since the epoch, as in
    [datetime64[ns]]); a missing timestamp ([NaT]) or a missing number
    ([NaN]) is [None].  Channel values are binary64 numbers, as in a
    [float64] column, and are added, divided and multiplied as such. *)

From Stdlib Require Import ZArith QArith Qreduction Lia List Permutation Sorted.
From Stdlib Require Import String Ascii.
From Stdlib Require Import Floats.
From stdpp Require Import gmap strings list.

Local Open Scope Z_scope.

(** ** Timestamps *)

Definition Timestamp : Type := Z.

Definition ns_per_hour : Z := 3600000000000.
Definition ns_per_day : Z := 86400000000000.

(** [Timestamp.normalize()]: midnight of the same calendar day. *)
Definition normalize (t : Timestamp) : Timestamp := t - t mod ns_per_day.

(** [Timestamp.date()]: the calendar date, as a day number. *)
Definition date (t : Timestamp) : Z := t / ns_per_day.

(** [str(d)] is ["YYYY-MM-DD"]; compared with a datetime column, pandas reads
    it as the timestamp of that day at 00:00:00. *)
Definition Timestamp_of_date (d : Z) : Timestamp := d * ns_per_day.

(** Start of the calendar hour of [t]. *)
Definition floor_hour (t : Timestamp) : Timestamp := t - t mod ns_per_hour.

(** ** Columns *)

Inductive channel : Set :=
| Global_active_power
| Global_reactive_power
| Voltage
| Global_intensity
| Sub_metering_1
| Sub_metering_2
| Sub_metering_3.

Definition numeric_cols : list channel :=
  [Global_active_power; Global_reactive_power; Voltage;
   Global_intensity; Sub_metering_1; Sub_metering_2; Sub_metering_3].

Definition channel_name (c : channel) : string :=
  match c with
  | Global_active_power => "Global_active_power"
  | Global_reactive_power => "Global_reactive_power"
  | Voltage => "Voltage"
  | Global_intensity => "Global_intensity"
  | Sub_metering_1 => "Sub_metering_1"
  | Sub_metering_2 => "Sub_metering_2"
  | Sub_metering_3 => "Sub_metering_3"
  end.

(** ** Exceptions and results *)

Inductive exn : Set :=
| OperationalError   (* sqlite3.connect: the database cannot be opened *)
| DatabaseError      (* pd.read_sql: the query fails *)
| AttributeError     (* resample: 'NaTType' object has no attribute 'normalize' *)
| DateInputError.    (* line 65: a table without rows has no first date *)

Inductive result (A : Type) : Type :=
| Ok (a : A)
| Raise (e : exn).
Arguments Ok {A} a.
Arguments Raise {A} e.

(** ** Generic list helpers used by the binning *)

Fixpoint take_while {A} (p : A -> bool) (l : list A) : list A :=
  match l with
  | [] => []
  | x :: l' => if p x then x :: take_while p l' else []
  end.

Fixpoint drop_while {A} (p : A -> bool) (l : list A) : list A :=
  match l with
  | [] => []
  | x :: l' => if p x then drop_while p l' else l
  end.

(** ** Numbers

    A cell of a numeric column is a binary64 number; [NaN] marks a missing
    value, written [None] here. *)

Definition of_float (v : float) : option float :=
  if is_nan v then None else Some v.

(** The number of valid cells of a bin, as a binary64 number. *)
Definition float_of_nat (n : nat) : float :=
  of_uint63 (Uint63.of_Z (Z.of_nat n)).

(** The exact value of a finite binary64 number. *)
Definition exact_value (v : float) : option Q :=
  match Prim2SF v with
  | S754_zero _ => Some 0%Q
  | S754_finite sign m e =>
      let n := if sign then Z.neg m else Z.pos m in
      Some (if 0 <=? e then inject_Z (n * 2 ^ e)
            else n # Pos.pow 2 (Z.to_pos (- e)))
  | S754_infinity _ | S754_nan => None
  end.

(** One row of the table produced by [load_data]. *)
Record HourlyRecord : Type := {
  Datetime : Timestamp;
  h_Global_active_power : option float;
  h_Global_reactive_power : option float;
  h_Voltage : option float;
  h_Global_intensity : option float;
  h_Sub_metering_1 : option float;
  h_Sub_metering_2 : option float;
  h_Sub_metering_3 : option float
}.

(** [rec[c]] for a numeric column [c]. *)
Definition hcell (c : channel) (h : HourlyRecord) : option float :=
  match c with
  | Global_active_power => h_Global_active_power h
  | Global_reactive_power => h_Global_reactive_power h
  | Voltage => h_Voltage h
  | Global_intensity => h_Global_intensity h
  | Sub_metering_1 => h_Sub_metering_1 h
  | Sub_metering_2 => h_Sub_metering_2 h
  | Sub_metering_3 => h_Sub_metering_3 h
  end.

(** ** Aggregation *)

(** The cells that count: neither missing nor [NaN]. *)
Definition valid_values (l : list (option float)) : list float :=
  omap (fun o => match o with Some v => of_float v | None => None end) l.

(** The running sum of [group_mean], with its compensation term (Kahan
    summation); a compensation that is [NaN] is reset to 0. *)
Fixpoint kahan_sum (sumx compensation : float) (values : list float) : float :=
  match values with
  | [] => sumx
  | val :: values' =>
      let y := (val - compensation)%float in
      let t := (sumx + y)%float in
      let c := (t - sumx - y)%float in
      kahan_sum t (if is_nan c then 0%float else c) values'
  end.

(** [mean()] of one column inside one bin: missing cells are skipped, the
    others are added up in the order of the rows and the sum is divided by
    their number; a bin with no valid cell gives a missing mean. *)
Definition mean (l : list (option float)) : option float :=
  match valid_values l with
  | [] => None
  | v :: vs =>
      of_float (kahan_sum 0 0 (v :: vs) / float_of_nat (length (v :: vs)))%float
  end.

(** ** Resampling on a datetime index *)

(** A frame indexed by "Datetime": the index entry of each row and its
    numeric cells. *)
Definition Indexed : Type := list (option Timestamp * (channel -> option float)).

(** The rows with a valid index entry.  (pandas puts [NaT] first when it
    sorts the index and drops the [NaT] bin from the result, so the rows
    without a timestamp are left out before the sort here.) *)
Definition valid_rows {V} (ix : list (option Timestamp * V)) : list (Timestamp * V) :=
  omap (fun r => match fst r with Some t => Some (t, snd r) | None => None end) ix.

(** Stable sort of the index, ascending, as pandas does with mergesort:
    rows with the same timestamp keep their order. *)
Fixpoint insert_by_time {V} (r : Timestamp * V) (l : list (Timestamp * V)) :=
  match l with
  | [] => [r]
  | x :: l' => if fst r <=? fst x then r :: x :: l' else x :: insert_by_time r l'
  end.

Definition sort_index {V} (l : list (Timestamp * V)) : list (Timestamp * V) :=
  fold_right insert_by_time [] l.

(** [ax.min()] and [ax.max()], skipping [NaT]. *)
Definition index_min (t : Timestamp) (ts : list Timestamp) : Timestamp :=
  fold_right Z.min t ts.
Definition index_max (t : Timestamp) (ts : list Timestamp) : Timestamp :=
  fold_right Z.max t ts.

(** [_get_timestamp_range_edges] for a tick frequency with [closed="left"]
    and [origin="start_day"]: both ends are moved onto the grid anchored at
    midnight of the first day; the right end always moves forward. *)
Definition get_timestamp_range_edges (first last freq : Z) : Z * Z :=
  let origin := normalize first in
  let foffset := (first - origin) mod freq in
  let loffset := (last - origin) mod freq in
  let fresult := if 0 <? foffset then first - foffset else first in
  let lresult := if 0 <? loffset then last + (freq - loffset) else last + freq in
  (fresult, lresult).

(** [date_range(start, end, freq)]: the grid points from [start] up to [end]. *)
Definition date_range (start stop freq : Z) : list Timestamp :=
  map (fun i => start + Z.of_nat i * freq)
      (seq 0 (Z.to_nat ((stop - start) / freq + 1))).

(** [generate_bins_dt64] with [closed="left"]: for each right edge, the rows
    of the sorted index that come before it and after the previous edge. *)
Fixpoint generate_bins {V} (right_edges : list Timestamp) (rows : list (Timestamp * V))
  : list (list (Timestamp * V)) :=
  match right_edges with
  | [] => []
  | r_bin :: edges =>
      take_while (fun x => fst x <? r_bin) rows
      :: generate_bins edges (drop_while (fun x => fst x <? r_bin) rows)
  end.

(** The bins of [resample("H")]: label (left edge) and rows of each bin. *)
Definition time_bins {V} (rows : list (Timestamp * V))
  : list (Timestamp * list (Timestamp * V)) :=
  match map fst rows with
  | [] => []
  | t :: ts =>
      let '(first, last) :=
        get_timestamp_range_edges (index_min t ts) (index_max t ts) ns_per_hour in
      let binner := date_range first last ns_per_hour in
      let bins := generate_bins (tail binner) rows in
      combine (firstn (length bins) binner) bins
  end.

(** The rows of the hour that starts at [h]. *)
Definition in_hour (h t : Timestamp) : bool := floor_hour t =? h.

Definition bucket {V} (h : Timestamp) (rows : list (Timestamp * V)) : list (Timestamp * V) :=
  List.filter (fun x => in_hour h (fst x)) rows.

(** Grid point number [i] of the hourly grid that starts at [h0]. *)
Definition grid (h0 : Timestamp) (i : nat) : Timestamp := h0 + Z.of_nat i * ns_per_hour.

(** Order of the rows of a sorted index. *)
Definition by_time {V} (a b : Timestamp * V) : Prop := fst a <= fst b.

(** The hourly grid from the hour of the first valid timestamp to the hour
    of the last one, both included; no grid without a timestamp. *)
Definition hours_of (ts : list Timestamp) : list Timestamp :=
  match ts with
  | [] => []
  | t :: ts' =>
      date_range (floor_hour (index_min t ts')) (floor_hour (index_max t ts'))
        ns_per_hour
  end.

(** [.resample("H")]: fails on an index that has rows but no valid
    timestamp, since its first timestamp is then [NaT], which cannot be
    moved to midnight.  (Timestamps are unbounded integers here; a grid edge
    outside the 64-bit range of pandas is an error that this model does not
    have.) *)
Definition resample_H (ix : Indexed) : result (list (Timestamp * list (Timestamp * (channel -> option float)))) :=
  match ix, valid_rows ix with
  | [], _ => Ok []
  | _ :: _, [] => Raise AttributeError
  | _ :: _, rows => Ok (time_bins (sort_index rows))
  end.

(** [[numeric_cols].mean().reset_index()]: one record per bin. *)
Definition mean_record (bin : Timestamp * list (Timestamp * (channel -> option float))) : HourlyRecord :=
  let col c := mean (map (fun r => snd r c) (snd bin)) in
  {| Datetime := fst bin;
     h_Global_active_power := col Global_active_power;
     h_Global_reactive_power := col Global_reactive_power;
     h_Voltage := col Voltage;
     h_Global_intensity := col Global_intensity;
     h_Sub_metering_1 := col Sub_metering_1;
     h_Sub_metering_2 := col Sub_metering_2;
     h_Sub_metering_3 := col Sub_metering_3 |}.

(** ** What the libraries do with one cell

    [raw] is a value as the store hands it over (text or a native type).
    [to_datetime] and [to_numeric] are [pd.to_datetime(x, errors="coerce")]
    and [pd.to_numeric(x, errors="coerce")] on one cell: the parsed value, or
    missing ([None], [NaN]) when the cell does not parse; the outcome for a
    cell is taken not to depend on the other cells of its column.
    [sql_leb] is the order of the store on values of the "Datetime" column,
    as used by [ORDER BY]: [sql_leb a b] when [a] sorts before or with [b]. *)

Class Backend : Type := {
  raw : Type;
  to_datetime : raw -> option Timestamp;
  to_numeric : raw -> float;
  sql_leb : raw -> raw -> bool
}.

(** ** The program *)

Section Program.

Context {B : Backend}.

(** One row of table [power_consumption]. *)
Record RawReading : Type := {
  raw_Datetime : raw;
  raw_Global_active_power : raw;
  raw_Global_reactive_power : raw;
  raw_Voltage : raw;
  raw_Global_intensity : raw;
  raw_Sub_metering_1 : raw;
  raw_Sub_metering_2 : raw;
  raw_Sub_metering_3 : raw
}.

(** [row[c]] for a numeric column [c]. *)
Definition column (c : channel) (r : RawReading) : raw :=
  match c with
  | Global_active_power => raw_Global_active_power r
  | Global_reactive_power => raw_Global_reactive_power r
  | Voltage => raw_Voltage r
  | Global_intensity => raw_Global_intensity r
  | Sub_metering_1 => raw_Sub_metering_1 r
  | Sub_metering_2 => raw_Sub_metering_2 r
  | Sub_metering_3 => raw_Sub_metering_3 r
  end.

(** *** The store and its connections *)

(** The outside world of [load_data]: whether [power_pulse.db] can be
    opened, table [power_consumption] (absent: [None]), and the connection
    objects created so far ([true]: open, [false]: closed). *)
Record World : Type := {
  db_openable : bool;
  power_consumption : option (list RawReading);
  connections : list bool
}.

Definition IO (A : Type) : Type := World -> result A * World.

Definition raise_from {A} (r : result A) : IO A := fun w => (r, w).

(** Sequencing; an exception skips the rest. *)
Definition bind {A B} (m : IO A) (k : A -> IO B) : IO B :=
  fun w =>
    match m w with
    | (Ok a, w') => k a w'
    | (Raise e, w') => (Raise e, w')
    end.

Notation "'call' x <~ m ;; k" := (bind m (fun x => k))
  (at level 10, x name, m at level 99, k at level 200).

(** [sqlite3.connect("power_pulse.db")] *)
Definition connect : IO nat :=
  fun w =>
    if db_openable w
    then (Ok (length (connections w)),
          {| db_openable := db_openable w;
             power_consumption := power_consumption w;
             connections := connections w ++ [true] |})
    else (Raise OperationalError, w).

(** [conn.close()] *)
Definition close (conn : nat) : IO unit :=
  fun w =>
    (Ok tt,
     {| db_openable := db_openable w;
        power_consumption := power_consumption w;
        connections := <[conn := false]> (connections w) |}).

(** [ORDER BY Datetime DESC]: insertion before the first row that does not
    sort above the new row, so that rows with equal "Datetime" stay in the
    order of the table. *)
Fixpoint insert_desc (r : RawReading) (l : list RawReading) : list RawReading :=
  match l with
  | [] => [r]
  | x :: l' =>
      if sql_leb (raw_Datetime x) (raw_Datetime r)
      then r :: x :: l'
      else x :: insert_desc r l'
  end.

Definition order_by_Datetime_desc (l : list RawReading) : list RawReading :=
  fold_right insert_desc [] l.

(** [a] may come before [b] in the result: [b] does not sort above [a]. *)
Definition newer_first (a b : RawReading) : Prop :=
  sql_leb (raw_Datetime b) (raw_Datetime a) = true.

Definition LIMIT : nat := Z.to_nat 10000.

(** The result set of
    [SELECT * FROM power_consumption ORDER BY Datetime DESC LIMIT 10000]. *)
Definition query (table : list RawReading) : list RawReading :=
  firstn LIMIT (order_by_Datetime_desc table).

(** [pd.read_sql(query, conn)] *)
Definition read_sql (conn : nat) : IO (list RawReading) :=
  fun w =>
    match connections w !! conn, power_consumption w with
    | Some true, Some table => (Ok (query table), w)
    | _, _ => (Raise DatabaseError, w)
    end.

(** *** Parsing and resampling (lines 16 to 26) *)

(** The frame after the "Datetime" column and the seven numeric columns
    have been converted, with "Datetime" as the index. *)
Definition set_index (df : list RawReading) : Indexed :=
  map (fun r => (to_datetime (raw_Datetime r),
                 fun c => of_float (to_numeric (column c r)))) df.

(** The rows whose "Datetime" cell parses, and their timestamps. *)
Definition has_timestamp (r : RawReading) : bool :=
  match to_datetime (raw_Datetime r) with
  | Some _ => true
  | None => false
  end.

Definition timestamps (df : list RawReading) : list Timestamp :=
  omap (fun r => to_datetime (raw_Datetime r)) df.

(** The rows that [resample] groups: those with a valid timestamp, in time
    order, rows with the same timestamp in the order of the frame. *)
Definition rows_in_time_order (df : list RawReading)
  : list (Timestamp * (channel -> option float)) :=
  sort_index (valid_rows (set_index df)).

Definition hourly (df : list RawReading) : result (list HourlyRecord) :=
  match resample_H (set_index df) with
  | Ok bins => Ok (map mean_record bins)
  | Raise e => Raise e
  end.

Definition load_data : IO (list HourlyRecord) :=
  call conn <~ connect ;;
  call df <~ read_sql conn ;;
  call closed <~ close conn ;;
  raise_from (hourly df).

End Program.


(** ** The dashboard page (lines 59 to 123) *)

(** [df[(df["Datetime"] >= str(start_date)) & (df["Datetime"] <= str(end_date))]]
    on the rows. *)
Definition date_mask (start_date end_date : Z) (r : HourlyRecord) : bool :=
  (Timestamp_of_date start_date <=? Datetime r)
  && (Datetime r <=? Timestamp_of_date end_date).

(** [df["Datetime"].min().date()] and [df["Datetime"].max().date()], the
    default values of the two date inputs (lines 65 and 66); a table without
    rows has no such date. *)
Definition default_start_date (df : list HourlyRecord) : option Z :=
  match map Datetime df with
  | [] => None
  | t :: ts => Some (date (index_min t ts))
  end.

Definition default_end_date (df : list HourlyRecord) : option Z :=
  match map Datetime df with
  | [] => None
  | t :: ts => Some (date (index_max t ts))
  end.

(** A DataFrame object: the hourly rows and the columns assigned later, in
    order. *)
Record DataFrame : Type := {
  records : list HourlyRecord;
  assigned : list (string * list (option float))
}.

Definition frame_of (rows : list HourlyRecord) : DataFrame :=
  {| records := rows; assigned := [] |}.

(** A record at [t] with the given "Global_active_power" and 0 in the other
    six channels. *)
Definition record_at (t : Timestamp) (power : option float) : HourlyRecord :=
  {| Datetime := t;
     h_Global_active_power := power;
     h_Global_reactive_power := Some 0%float;
     h_Voltage := Some 0%float;
     h_Global_intensity := Some 0%float;
     h_Sub_metering_1 := Some 0%float;
     h_Sub_metering_2 := Some 0%float;
     h_Sub_metering_3 := Some 0%float |}.

(** A record at [t] with every channel missing. *)
Definition empty_record_at (t : Timestamp) : HourlyRecord :=
  {| Datetime := t;
     h_Global_active_power := None;
     h_Global_reactive_power := None;
     h_Voltage := None;
     h_Global_intensity := None;
     h_Sub_metering_1 := None;
     h_Sub_metering_2 := None;
     h_Sub_metering_3 := None |}.

Definition columns (f : DataFrame) : list string :=
  "Datetime"%string :: map channel_name numeric_cols ++ map fst (assigned f).

(** [f[mask]]: a new frame with the selected rows of every column. *)
Definition select_rows {A} (mask : list bool) (l : list A) : list A :=
  map snd (List.filter fst (combine mask l)).

Definition getitem_mask (p : HourlyRecord -> bool) (f : DataFrame) : DataFrame :=
  let mask := map p (records f) in
  {| records := select_rows mask (records f);
     assigned := map (fun c => (fst c, select_rows mask (snd c))) (assigned f) |}.

(** [f[name] = values]: replaces the column when it exists, appends it
    otherwise. *)
Fixpoint set_column (name : string) (v : list (option float))
    (cols : list (string * list (option float))) : list (string * list (option float)) :=
  match cols with
  | [] => [(name, v)]
  | c :: cols' =>
      if String.eqb (fst c) name then (name, v) :: cols'
      else c :: set_column name v cols'
  end.

Definition setitem (name : string) (v : list (option float)) (f : DataFrame) : DataFrame :=
  {| records := records f; assigned := set_column name v (assigned f) |}.

(** The binary64 number that the literal [1.02] denotes. *)
Definition predicted_factor : float := 0x1.051eb851eb852p+0%float.

(** [f["Global_active_power"] * 1.02] *)
Definition scaled_power (f : DataFrame) : list (option float) :=
  map (fun r => match h_Global_active_power r with
                | Some q => of_float (q * predicted_factor)%float
                | None => None
                end) (records f).

(** The objects of one script run: DataFrame objects by address, and the
    value that [st.cache_data] keeps for [load_data]. *)
Record Session : Type := {
  heap : gmap nat DataFrame;
  cache : option (list HourlyRecord)
}.

Definition alloc (f : DataFrame) (s : Session) : nat * Session :=
  let l := fresh (dom (heap s)) in
  (l, {| heap := <[l := f]> (heap s); cache := cache s |}).

Inductive page : Set := Dashboard | Project_Summary.

(** The dashboard branch from the date filter (line 69) to the "Predicted"
    column; [df] is the address of the table returned by [load_data()], and
    [start_date] and [end_date] are the values of the two date inputs.
    Widgets and charts only read their arguments. *)
Definition dashboard (start_date end_date : Z) (df : nat) (s : Session) : Session :=
  match heap s !! df with
  | None => s
  | Some f =>
      let '(filtered_df, s1) := alloc (getitem_mask (date_mask start_date end_date) f) s in
      match heap s1 !! filtered_df with
      | None => s1
      | Some g =>
          match records g with
          | [] => s1
          | _ :: _ =>
              {| heap := <[filtered_df := setitem "Predicted" (scaled_power g) g]> (heap s1);
                 cache := cache s1 |}
          end
      end
  end.

(** *** The script as a whole *)

Section Script.

Context {B : Backend}.

(** [load_data()] under [@st.cache_data]: the cached value when there is
    one; otherwise the function runs and its table is kept. *)
Definition cached_load_data (w : World) (s : Session)
  : result (list HourlyRecord) * World * Session :=
  match cache s with
  | Some table => (Ok table, w, s)
  | None =>
      match load_data w with
      | (Ok table, w') => (Ok table, w', {| heap := heap s; cache := Some table |})
      | (Raise e, w') => (Raise e, w', s)
      end
  end.

(** One run of the script: [df = load_data()] binds [df] to a fresh copy of
    the table, then the selected page is drawn.  An exception of
    [load_data] ends the run.  On the dashboard page the two date inputs
    are first given their default values (lines 65 and 66), which a table
    without rows does not have: the run ends there with an exception.
    [start_date] and [end_date] are the values the inputs return. *)
Definition run_script (p : page) (start_date end_date : Z) (w : World) (s : Session)
  : result nat * World * Session :=
  match cached_load_data w s with
  | (Ok table, w', s0) =>
      let '(df, s1) := alloc (frame_of table) s0 in
      match p with
      | Dashboard =>
          match default_start_date table, default_end_date table with
          | Some _, Some _ => (Ok df, w', dashboard start_date end_date df s1)
          | _, _ => (Raise DateInputError, w', s1)
          end
      | Project_Summary => (Ok df, w', s1)
      end
  | (Raise e, w', s0) => (Raise e, w', s0)
  end.

End Script.

(** ** A store of text cells

    The instance used in the worked examples: every cell is text, as SQLite
    returns a TEXT column.  The two parsers read the layouts
    ["YYYY-MM-DD HH:MM:SS"] and plain decimals of up to 15 digits, which
    pandas reads the same way (a decimal as the nearest binary64 number); any
    other text is treated as unparseable here.  Text is ordered byte by
    byte, as SQLite orders it. *)

Module TextStore.

Definition digit (a : ascii) : option Z :=
  let n := Z.of_N (N_of_ascii a) in
  if (48 <=? n) && (n <=? 57) then Some (n - 48) else None.

Fixpoint number_from (acc : Z) (s : string) : option Z :=
  match s with
  | EmptyString => Some acc
  | String a s' =>
      match digit a with
      | Some d => number_from (10 * acc + d) s'
      | None => None
      end
  end.

Definition number (s : string) : option Z :=
  match s with
  | EmptyString => None
  | _ => number_from 0 s
  end.

(** Days between 1970-01-01 and the given civil date. *)
Definition days_from_civil (y m d : Z) : Z :=
  let y' := if m <=? 2 then y - 1 else y in
  let era := y' / 400 in
  let yoe := y' - era * 400 in
  let mp := if 2 <? m then m - 3 else m + 9 in
  let doy := (153 * mp + 2) / 5 + d - 1 in
  let doe := yoe * 365 + yoe / 4 - yoe / 100 + doy in
  era * 146097 + doe - 719468.

Definition is_leap (y : Z) : bool :=
  ((y mod 4 =? 0) && negb (y mod 100 =? 0)) || (y mod 400 =? 0).

Definition days_in_month (y m : Z) : Z :=
  if m =? 2 then (if is_leap y then 29 else 28)
  else if (m =? 4) || (m =? 6) || (m =? 9) || (m =? 11) then 30
  else 31.

Definition to_datetime (s : string) : option Timestamp :=
  match number (substring 0 4 s), number (substring 5 2 s),
        number (substring 8 2 s), number (substring 11 2 s),
        number (substring 14 2 s), number (substring 17 2 s) with
  | Some y, Some m, Some d, Some hh, Some mi, Some ss =>
      if (String.length s =? 19)%nat
         && String.eqb (substring 4 1 s) "-" && String.eqb (substring 7 1 s) "-"
         && String.eqb (substring 10 1 s) " "
         && String.eqb (substring 13 1 s) ":" && String.eqb (substring 16 1 s) ":"
         && (1 <=? m) && (m <=? 12) && (1 <=? d) && (d <=? days_in_month y m)
         && (hh <? 24) && (mi <? 60) && (ss <? 60)
      then Some ((days_from_civil y m d * 86400 + hh * 3600 + mi * 60 + ss)
                 * 1000000000)
      else None
  | _, _, _, _, _, _ => None
  end.

Fixpoint decimal_from (seen_dot any : bool) (num : Z) (scale : positive)
    (s : string) : option Q :=
  match s with
  | EmptyString => if any then Some (num # scale) else None
  | String a s' =>
      match digit a with
      | Some d =>
          decimal_from seen_dot true (10 * num + d)
            (if seen_dot then 10 * scale else scale)%positive s'
      | None =>
          if Ascii.eqb a "." && negb seen_dot
          then decimal_from true any num scale s'
          else None
      end
  end.

(** The binary64 number nearest to the decimal [num / scale]: both are
    binary64 numbers when they are below 2^53 and 10^22, and their quotient
    is rounded once. *)
Definition float_of_decimal (q : Q) : float :=
  if (Qnum q <? 2 ^ 53) && (Z.pos (Qden q) <=? 10 ^ 22)
  then (of_uint63 (Uint63.of_Z (Qnum q)) / of_uint63 (Uint63.of_Z (Z.pos (Qden q))))%float
  else nan.

Definition unsigned (s : string) : float :=
  match decimal_from false false 0 1 s with
  | Some q => float_of_decimal q
  | None => nan
  end.

Definition to_numeric (s : string) : float :=
  match s with
  | String "-" s' => (- unsigned s')%float
  | _ => unsigned s
  end.

Definition sql_leb : string -> string -> bool := String.leb.

Definition backend : Backend :=
  Build_Backend string to_datetime to_numeric sql_leb.

(** A row with the given timestamp text and "Global_active_power" text;
    the other six channels hold ["0"]. *)
Definition reading (datetime power : string) : @RawReading backend :=
  @Build_RawReading backend datetime power "0" "0" "0" "0" "0" "0".

Definition hourly := @hourly backend.
Definition load_data := @load_data backend.

(** A reachable store holding [table], with no connection made yet. *)
Definition store (table : list (@RawReading backend)) : @World backend :=
  @Build_World backend true (Some table) [].

(** The timestamp of [text], or 0 when it does not parse (examples only). *)
Definition at_time (text : string) : Timestamp :=
  match to_datetime text with Some t => t | None => 0 end.

(** The indexed row that [set_index] makes of a reading. *)
Definition indexed (r : @RawReading backend) : Timestamp * (channel -> option float) :=
  (at_time (raw_Datetime r), fun c => of_float (to_numeric (column c r))).

(** The scenario of the specification: readings at 10:05, 10:40 and 11:10,
    delivered newest first. *)
Definition scenario : list (@RawReading backend) :=
  [reading "2007-01-01 11:10:00" "5.0";
   reading "2007-01-01 10:40:00" "3.0";
   reading "2007-01-01 10:05:00" "1.0"].

(** Two readings with an empty hour (11:00) between them. *)
Definition gap_rows : list (@RawReading backend) :=
  [reading "2007-01-01 12:10:00" "5.0";
   reading "2007-01-01 10:05:00" "1.0"].

(** A reading with an unparseable power cell ("?" marks a missing
    measurement in the data set) next to a valid one of the same hour, and a
    reading whose timestamp does not parse. *)
Definition dirty_rows : list (@RawReading backend) :=
  [reading "2007-01-01 10:40:00" "?";
   reading "2007-01-01 10:05:00" "1.0";
   reading "not a timestamp" "7.0"].


(** Two readings of one hour, with powers 0.1 and 0.2. *)
Definition tenths_rows : list (@RawReading backend) :=
  [reading "2007-01-01 10:40:00" "0.2";
   reading "2007-01-01 10:05:00" "0.1"].

(** A single reading, with a timestamp that does not parse. *)
Definition bad_timestamp_rows : list (@RawReading backend) :=
  [reading "not a timestamp" "1.0"].

(** A database file without table [power_consumption]. *)
Definition absent_table : @World backend := @Build_World backend true None [].

(** More than 10,000 readings. *)
Definition big_table : list (@RawReading backend) :=
  repeat (reading "2007-01-01 00:00:00" "1.0") (S LIMIT).

(** Readings of one day at 00:10 and 01:20, and that day. *)
Definition one_day_rows : list (@RawReading backend) :=
  [reading "2007-01-01 01:20:00" "2.0";
   reading "2007-01-01 00:10:00" "1.0"].

Definition new_year : Z := date (at_time "2007-01-01 00:00:00").

(** The reading [r] with another "Voltage" cell. *)
Definition with_voltage (v : string) (r : @RawReading backend) : @RawReading backend :=
  @Build_RawReading backend (raw_Datetime r) (raw_Global_active_power r)
    (raw_Global_reactive_power r) v (raw_Global_intensity r)
    (raw_Sub_metering_1 r) (raw_Sub_metering_2 r) (raw_Sub_metering_3 r).

(** The table of [one_day_rows]. *)
Definition one_day_table : list HourlyRecord :=
  [record_at (at_time "2007-01-01 00:00:00") (Some 1%float);
   record_at (at_time "2007-01-01 01:00:00") (Some 2%float)].

(** A session before the first run: no DataFrame, nothing cached. *)
Definition new_session : Session := {| heap := ∅; cache := None |}.

Definition run_script := @run_script backend.

(** A session in which [df], at address 0, is bound to the table of
    [one_day_rows]. *)
Definition loaded_session : Session :=
  {| heap := {[ 0%nat := frame_of one_day_table ]}; cache := Some one_day_table |}.

End TextStore.

(** * Properties *)

(** ** Hours and days *)

Lemma ns_per_hour_pos : 0 < ns_per_hour.
Proof. reflexivity. Qed.

Lemma ns_per_day_hours : ns_per_day = 24 * ns_per_hour.
Proof. reflexivity. Qed.

Lemma hour_divides_day : (ns_per_hour | ns_per_day).
Proof. exists 24. apply ns_per_day_hours. Qed.

Lemma floor_hour_le t : floor_hour t <= t.
Proof.
  unfold floor_hour. pose proof (Z.mod_pos_bound t _ ns_per_hour_pos). lia.
Qed.

Lemma floor_hour_lt t : t < floor_hour t + ns_per_hour.
Proof.
  unfold floor_hour. pose proof (Z.mod_pos_bound t _ ns_per_hour_pos). lia.
Qed.

Lemma floor_hour_boundary t : floor_hour t mod ns_per_hour = 0.
Proof.
  unfold floor_hour. pose proof ns_per_hour_pos.
  rewrite Zminus_mod, Zmod_mod, Z.sub_diag. apply Zmod_0_l.
Qed.

Lemma floor_hour_unique h t :
  h mod ns_per_hour = 0 -> h <= t < h + ns_per_hour -> floor_hour t = h.
Proof.
  intros Hh Ht. pose proof ns_per_hour_pos as Hpos.
  unfold floor_hour.
  apply Z.mod_divide in Hh; [| lia]. destruct Hh as [k ->].
  assert (t mod ns_per_hour = t - k * ns_per_hour); [| lia].
  symmetry. apply Z.mod_unique_pos with (q := k); lia.
Qed.

Lemma floor_hour_mono a b : a <= b -> floor_hour a <= floor_hour b.
Proof.
  intros Hab. pose proof ns_per_hour_pos as Hpos.
  unfold floor_hour.
  rewrite !Z.mod_eq by lia.
  pose proof (Z.div_le_mono a b ns_per_hour Hpos Hab). nia.
Qed.

Lemma in_hour_spec h t :
  h mod ns_per_hour = 0 ->
  in_hour h t = (h <=? t) && (t <? h + ns_per_hour).
Proof.
  intros Hh. unfold in_hour.
  destruct ((h <=? t) && (t <? h + ns_per_hour)) eqn:E.
  - apply andb_true_iff in E as [E1 E2].
    apply Z.leb_le in E1. apply Z.ltb_lt in E2.
    apply Z.eqb_eq. apply floor_hour_unique; lia.
  - apply Z.eqb_neq. intros <-.
    pose proof (floor_hour_le t). pose proof (floor_hour_lt t).
    apply andb_false_iff in E as [E | E];
      [apply Z.leb_gt in E | apply Z.ltb_ge in E]; lia.
Qed.

(** The grid of [resample("H")] starts at the hour of the first timestamp
    and ends one hour after the hour of the last one. *)
Lemma range_edges_hour first last :
  get_timestamp_range_edges first last ns_per_hour
  = (floor_hour first, floor_hour last + ns_per_hour).
Proof.
  pose proof ns_per_hour_pos as Hpos.
  unfold get_timestamp_range_edges, normalize.
  assert (Hf : (first - (first - first mod ns_per_day)) mod ns_per_hour
               = first mod ns_per_hour).
  { replace (first - (first - first mod ns_per_day)) with (first mod ns_per_day) by lia.
    apply Z.mod_mod_divide, hour_divides_day. }
  assert (Hl : (last - (first - first mod ns_per_day)) mod ns_per_hour
               = last mod ns_per_hour).
  { pose proof (Z.mod_mod_divide first _ _ hour_divides_day) as Hd.
    rewrite Zminus_mod.
    rewrite (Zminus_mod first), Hd, Z.sub_diag, Zmod_0_l, Z.sub_0_r.
    apply Zmod_mod. }
  rewrite Hf, Hl. unfold floor_hour.
  pose proof (Z.mod_pos_bound first _ Hpos).
  pose proof (Z.mod_pos_bound last _ Hpos).
  f_equal.
  - destruct (0 <? first mod ns_per_hour) eqn:E; [reflexivity |].
    apply Z.ltb_ge in E. lia.
  - destruct (0 <? last mod ns_per_hour) eqn:E; [lia |].
    apply Z.ltb_ge in E. lia.
Qed.

(** ** Sorting the index *)

Lemma filter_none {A} (p : A -> bool) (l : list A) :
  (forall x, In x l -> p x = false) -> List.filter p l = [].
Proof.
  induction l as [| y l IH]; simpl; intros H; [reflexivity |].
  rewrite (H y) by now left. apply IH. intros x Hx. apply H. now right.
Qed.

Section Binning.

Context {V : Type}.
Implicit Types (r x : Timestamp * V) (l rows : list (Timestamp * V)).

Lemma insert_by_time_perm r l : Permutation (r :: l) (insert_by_time r l).
Proof.
  induction l as [| x l IH]; simpl; [reflexivity |].
  destruct (fst r <=? fst x); [reflexivity |].
  rewrite perm_swap. now apply perm_skip.
Qed.

Lemma sort_index_perm l : Permutation l (sort_index l).
Proof.
  induction l as [| x l IH]; simpl; [constructor |].
  rewrite <- insert_by_time_perm. now apply perm_skip.
Qed.

Lemma insert_by_time_sorted r l :
  StronglySorted by_time l -> StronglySorted by_time (insert_by_time r l).
Proof.
  induction 1 as [| x l Hs IH Hx]; simpl.
  - repeat constructor.
  - destruct (fst r <=? fst x) eqn:E.
    + apply Z.leb_le in E.
      constructor; [now constructor |].
      constructor; [exact E |].
      eapply List.Forall_impl; [| exact Hx]. unfold by_time. intros; lia.
    + apply Z.leb_gt in E.
      constructor; [exact IH |].
      rewrite <- insert_by_time_perm. constructor; [| exact Hx].
      unfold by_time. lia.
Qed.

Lemma sort_index_sorted l : StronglySorted by_time (sort_index l).
Proof.
  induction l; simpl; [constructor | now apply insert_by_time_sorted].
Qed.

Lemma take_drop_while (p : Timestamp * V -> bool) l :
  take_while p l ++ drop_while p l = l.
Proof.
  induction l as [| x l IH]; simpl; [reflexivity |].
  destruct (p x); simpl; [now rewrite IH | reflexivity].
Qed.

(** On a sorted index, the rows before an edge are a prefix. *)
Lemma take_while_before edge l :
  StronglySorted by_time l ->
  take_while (fun x => fst x <? edge) l = List.filter (fun x => fst x <? edge) l.
Proof.
  induction 1 as [| x l Hs IH Hx]; simpl; [reflexivity |].
  destruct (fst x <? edge) eqn:E; [now rewrite IH |].
  apply Z.ltb_ge in E. symmetry.
  apply filter_none. intros y Hy.
  rewrite List.Forall_forall in Hx. specialize (Hx y Hy).
  unfold by_time in Hx. apply Z.ltb_ge. lia.
Qed.

Lemma drop_while_sorted (p : Timestamp * V -> bool) l :
  StronglySorted by_time l -> StronglySorted by_time (drop_while p l).
Proof.
  induction 1 as [| x l Hs IH Hx]; simpl; [constructor |].
  destruct (p x); [exact IH | now constructor].
Qed.

Lemma drop_while_from edge l :
  StronglySorted by_time l ->
  Forall (fun x => edge <= fst x) (drop_while (fun x => fst x <? edge) l).
Proof.
  induction 1 as [| x l Hs IH Hx]; simpl; [constructor |].
  destruct (fst x <? edge) eqn:E; [exact IH |].
  apply Z.ltb_ge in E. constructor; [exact E |].
  eapply List.Forall_impl; [| exact Hx]. unfold by_time. intros; lia.
Qed.

Lemma bucket_app h l1 l2 : bucket h (l1 ++ l2) = bucket h l1 ++ bucket h l2.
Proof. apply List.filter_app. Qed.

Lemma bucket_In h l x : In x (bucket h l) <-> In x l /\ floor_hour (fst x) = h.
Proof.
  unfold bucket. rewrite List.filter_In. unfold in_hour.
  now rewrite Z.eqb_eq.
Qed.

Lemma grid_boundary h0 i : h0 mod ns_per_hour = 0 -> grid h0 i mod ns_per_hour = 0.
Proof.
  intros Hh. unfold grid. now rewrite Z_mod_plus_full.
Qed.

Lemma grid_S h0 i : grid h0 (S i) = grid h0 i + ns_per_hour.
Proof. unfold grid. lia. Qed.

Lemma grid_le h0 i j : (i <= j)%nat -> grid h0 i <= grid h0 j.
Proof. intros Hij. unfold grid. pose proof ns_per_hour_pos. nia. Qed.

(** The rows before the right edge of a bin whose left edge bounds every
    row are the rows of that hour. *)
Lemma take_while_bucket h l :
  h mod ns_per_hour = 0 ->
  StronglySorted by_time l ->
  Forall (fun x => h <= fst x) l ->
  take_while (fun x => fst x <? h + ns_per_hour) l = bucket h l.
Proof.
  intros Hh Hs Hall. rewrite take_while_before by exact Hs.
  unfold bucket. apply List.filter_ext_in.
  intros x Hx. rewrite in_hour_spec by exact Hh.
  rewrite List.Forall_forall in Hall. specialize (Hall x Hx).
  apply Z.leb_le in Hall. now rewrite Hall.
Qed.

Lemma bucket_before h edge l :
  h mod ns_per_hour = 0 -> edge <= h ->
  bucket h (take_while (fun x => fst x <? edge) l) = [].
Proof.
  intros Hh He. unfold bucket. apply filter_none.
  intros x Hx.
  assert (Hlt : fst x < edge).
  { clear -Hx. induction l as [| y l IH]; simpl in Hx; [contradiction |].
    destruct (fst y <? edge) eqn:E; [| contradiction].
    destruct Hx as [-> | Hx]; [now apply Z.ltb_lt | auto]. }
  rewrite in_hour_spec by exact Hh.
  assert ((h <=? fst x) = false) as -> by (apply Z.leb_gt; lia).
  reflexivity.
Qed.

(** Bin number [i] of [generate_bins] holds the rows of hour [i] of the
    grid. *)
Lemma generate_bins_buckets h0 n : forall k rows,
  h0 mod ns_per_hour = 0 ->
  StronglySorted by_time rows ->
  Forall (fun x => grid h0 k <= fst x) rows ->
  generate_bins (map (grid h0) (seq (S k) n)) rows
  = map (fun i => bucket (grid h0 i) rows) (seq k n).
Proof.
  induction n as [| n IH]; intros k rows Hh Hs Hall; simpl; [reflexivity |].
  rewrite grid_S.
  rewrite take_while_bucket; [| now apply grid_boundary | exact Hs | exact Hall].
  f_equal.
  rewrite IH; [| exact Hh | now apply drop_while_sorted |
               rewrite grid_S; now apply drop_while_from].
  apply map_ext_in. intros i Hi. apply in_seq in Hi.
  rewrite <- (take_drop_while (fun x => fst x <? grid h0 k + ns_per_hour) rows) at 2.
  rewrite bucket_app, bucket_before; [reflexivity | now apply grid_boundary |].
  rewrite <- grid_S. apply grid_le. lia.
Qed.

End Binning.

(** ** The grid of labels *)

Lemma index_min_le t ts x : In x (t :: ts) -> index_min t ts <= x.
Proof.
  unfold index_min. induction ts as [| y ts IH]; simpl.
  - intros [-> | []]. lia.
  - intros [-> | [-> | Hx]]; [| lia |].
    + specialize (IH (or_introl eq_refl)). lia.
    + specialize (IH (or_intror Hx)). lia.
Qed.

Lemma index_max_ge t ts x : In x (t :: ts) -> x <= index_max t ts.
Proof.
  unfold index_max. induction ts as [| y ts IH]; simpl.
  - intros [-> | []]. lia.
  - intros [-> | [-> | Hx]]; [| lia |].
    + specialize (IH (or_introl eq_refl)). lia.
    + specialize (IH (or_intror Hx)). lia.
Qed.

Lemma index_min_In t ts : In (index_min t ts) (t :: ts).
Proof.
  unfold index_min. induction ts as [| y ts IH]; simpl; [now left |].
  destruct (Z.min_spec y (fold_right Z.min t ts)) as [[_ ->] | [_ ->]].
  - right. now left.
  - simpl in IH. destruct IH as [IH | IH]; [now left | right; now right].
Qed.

Lemma index_max_In t ts : In (index_max t ts) (t :: ts).
Proof.
  unfold index_max. induction ts as [| y ts IH]; simpl; [now left |].
  destruct (Z.max_spec y (fold_right Z.max t ts)) as [[_ ->] | [_ ->]].
  - simpl in IH. destruct IH as [IH | IH]; [now left | right; now right].
  - right. now left.
Qed.

Lemma date_range_grid a b :
  date_range a b ns_per_hour
  = map (grid a) (seq 0 (Z.to_nat ((b - a) / ns_per_hour + 1))).
Proof. reflexivity. Qed.

(** The points of an hourly range that starts on an hour boundary are the
    hour boundaries between its two ends. *)
Lemma date_range_In a b h :
  a mod ns_per_hour = 0 ->
  In h (date_range a b ns_per_hour) <-> h mod ns_per_hour = 0 /\ a <= h <= b.
Proof.
  intros Ha. pose proof ns_per_hour_pos as Hpos.
  rewrite date_range_grid, in_map_iff. split.
  - intros (i & <- & Hi). apply in_seq in Hi.
    split; [now apply grid_boundary |].
    unfold grid. split; [nia |].
    assert (Z.of_nat i <= (b - a) / ns_per_hour) as Hle by lia.
    pose proof (Z.mul_div_le (b - a) ns_per_hour Hpos). nia.
  - intros (Hh & Hah & Hhb).
    apply Z.mod_divide in Ha; [| lia]. destruct Ha as [ka ->].
    apply Z.mod_divide in Hh; [| lia]. destruct Hh as [kh ->].
    exists (Z.to_nat (kh - ka)). unfold grid.
    assert (ka <= kh) by nia.
    split; [rewrite Z2Nat.id by lia; lia |]. apply in_seq.
    assert (kh - ka <= (b - ka * ns_per_hour) / ns_per_hour).
    { apply Z.div_le_lower_bound; [lia | nia]. }
    lia.
Qed.

Lemma date_range_sorted a b :
  StronglySorted Z.lt (date_range a b ns_per_hour).
Proof.
  rewrite date_range_grid.
  generalize (Z.to_nat ((b - a) / ns_per_hour + 1)) as n.
  generalize 0%nat as k. intros k n. revert k.
  induction n as [| n IH]; intros k; simpl; constructor; [apply IH |].
  apply List.Forall_forall. intros h Hh.
  apply in_map_iff in Hh as (i & <- & Hi). apply in_seq in Hi.
  unfold grid. pose proof ns_per_hour_pos. nia.
Qed.

Section TimeBins.

Context {V : Type}.

(** The bins of [resample("H")] on a sorted index: one bin for every hour
    from the hour of the first timestamp to the hour of the last one, each
    holding the rows of its hour. *)
Lemma time_bins_buckets (rows : list (Timestamp * V)) t ts :
  map fst rows = t :: ts ->
  StronglySorted by_time rows ->
  time_bins rows
  = map (fun h => (h, bucket h rows))
        (date_range (floor_hour (index_min t ts)) (floor_hour (index_max t ts))
           ns_per_hour).
Proof.
  intros Hix Hs. pose proof ns_per_hour_pos as Hpos.
  unfold time_bins. rewrite Hix, range_edges_hour.
  set (mn := index_min t ts). set (mx := index_max t ts).
  assert (Hmm : floor_hour mn <= floor_hour mx).
  { apply floor_hour_mono, index_min_le, index_max_In. }
  rewrite !date_range_grid.
  replace ((floor_hour mx + ns_per_hour - floor_hour mn) / ns_per_hour)
    with ((floor_hour mx - floor_hour mn) / ns_per_hour + 1).
  2:{ replace (floor_hour mx + ns_per_hour - floor_hour mn)
        with (floor_hour mx - floor_hour mn + 1 * ns_per_hour) by lia.
      rewrite Z_div_plus_full by lia. reflexivity. }
  assert (Hd : 0 <= (floor_hour mx - floor_hour mn) / ns_per_hour).
  { apply Z.div_pos; lia. }
  set (d := (floor_hour mx - floor_hour mn) / ns_per_hour) in *.
  replace (Z.to_nat (d + 1 + 1)) with (S (Z.to_nat (d + 1))) by lia.
  set (n := Z.to_nat (d + 1)).
  cbn [seq map tail]. rewrite <- seq_shift, map_map.
  rewrite <- (map_map S (grid (floor_hour mn))), seq_shift.
  rewrite generate_bins_buckets;
    [| apply floor_hour_boundary | exact Hs |].
  2:{ apply List.Forall_forall. intros x Hx.
      unfold grid. rewrite Z.mul_0_l, Z.add_0_r.
      etransitivity; [apply floor_hour_le |].
      apply index_min_le. rewrite <- Hix. now apply in_map. }
  rewrite length_map, length_seq.
  replace (grid (floor_hour mn) 0 :: map (grid (floor_hour mn)) (seq 1 n))
    with (map (grid (floor_hour mn)) (seq 0 (S n))) by reflexivity.
  rewrite firstn_map, seq_S, firstn_app, length_seq, Nat.sub_diag.
  rewrite firstn_all2 by (rewrite length_seq; lia).
  cbn [firstn]. rewrite app_nil_r.
  generalize (seq 0 n) as l. intros l.
  induction l as [| i l IH]; simpl; [reflexivity | now rewrite IH].
Qed.

End TimeBins.

(** ** Means *)

(** Missing cells take no part in a mean. *)
Lemma mean_skips_missing l : mean (None :: l) = mean l.
Proof. reflexivity. Qed.

Lemma of_float_not_nan (v w : float) : of_float v = Some w -> v = w /\ is_nan w = false.
Proof.
  unfold of_float. destruct (is_nan v) eqn:E; [discriminate |].
  intros H. inversion H. subst. auto.
Qed.

(** A bin whose cells are all missing has a missing mean. *)
Lemma mean_all_missing (l : list (option float)) :
  (forall o, In o l -> o = None) -> mean l = None.
Proof.
  intros H. unfold mean.
  replace (valid_values l) with (@nil float); [reflexivity |].
  symmetry. unfold valid_values.
  induction l as [| o l IH]; [reflexivity |].
  cbn [omap list_omap]. rewrite (H o) by now left.
  apply IH. intros o' Ho'. apply H. now right.
Qed.

(** A mean is never [NaN]: it is a number or missing. *)
Lemma mean_not_nan (l : list (option float)) (m : float) :
  mean l = Some m -> is_nan m = false.
Proof.
  unfold mean. destruct (valid_values l); [discriminate |].
  intros H. now apply of_float_not_nan in H.
Qed.

Lemma hcell_mean_record c (bin : Timestamp * list (Timestamp * (channel -> option float))) :
  hcell c (mean_record bin) = mean (map (fun r => snd r c) (snd bin)).
Proof. destruct c; reflexivity. Qed.

(** ** What [resample("H")] returns *)

Lemma index_min_perm t ts t' ts' :
  Permutation (t :: ts) (t' :: ts') -> index_min t ts = index_min t' ts'.
Proof.
  intros Hp.
  pose proof (index_min_le t ts (index_min t' ts')) as H1.
  pose proof (index_min_le t' ts' (index_min t ts)) as H2.
  pose proof (index_min_In t ts) as I1. pose proof (index_min_In t' ts') as I2.
  apply (Permutation_in _ Hp) in I1.
  apply (Permutation_in _ (Permutation_sym Hp)) in I2.
  specialize (H1 I2). specialize (H2 I1). lia.
Qed.

Lemma index_max_perm t ts t' ts' :
  Permutation (t :: ts) (t' :: ts') -> index_max t ts = index_max t' ts'.
Proof.
  intros Hp.
  pose proof (index_max_ge t ts (index_max t' ts')) as H1.
  pose proof (index_max_ge t' ts' (index_max t ts)) as H2.
  pose proof (index_max_In t ts) as I1. pose proof (index_max_In t' ts') as I2.
  apply (Permutation_in _ Hp) in I1.
  apply (Permutation_in _ (Permutation_sym Hp)) in I2.
  specialize (H1 I2). specialize (H2 I1). lia.
Qed.

Lemma hours_of_perm ts ts' : Permutation ts ts' -> hours_of ts = hours_of ts'.
Proof.
  intros Hp. unfold hours_of.
  destruct ts as [| t ts], ts' as [| t' ts'].
  - reflexivity.
  - apply Permutation_nil in Hp. discriminate.
  - symmetry in Hp. apply Permutation_nil in Hp. discriminate.
  - now rewrite (index_min_perm _ _ _ _ Hp), (index_max_perm _ _ _ _ Hp).
Qed.

(** The labels are the hour boundaries between the hours of two valid
    timestamps. *)
Lemma hours_of_In ts h :
  In h (hours_of ts) <->
  h mod ns_per_hour = 0
  /\ exists t1 t2, In t1 ts /\ In t2 ts /\ floor_hour t1 <= h <= floor_hour t2.
Proof.
  unfold hours_of. destruct ts as [| t ts].
  - split; [intros [] | intros (_ & t1 & _ & [] & _)].
  - rewrite date_range_In by apply floor_hour_boundary. split.
    + intros (Hh & Hlo & Hhi). split; [exact Hh |].
      exists (index_min t ts), (index_max t ts).
      split; [apply index_min_In |]. split; [apply index_max_In | lia].
    + intros (Hh & t1 & t2 & H1 & H2 & Hlo & Hhi). split; [exact Hh |].
      pose proof (floor_hour_mono _ _ (index_min_le t ts t1 H1)).
      pose proof (floor_hour_mono _ _ (index_max_ge t ts t2 H2)). lia.
Qed.

Lemma hours_of_sorted ts : StronglySorted Z.lt (hours_of ts).
Proof.
  unfold hours_of. destruct ts; [constructor | apply date_range_sorted].
Qed.

Lemma filter_perm {A} (p : A -> bool) (l1 l2 : list A) :
  Permutation l1 l2 -> Permutation (List.filter p l1) (List.filter p l2).
Proof.
  induction 1 as [| x l1 l2 _ IH | x y l | l1 l2 l3 _ IH1 _ IH2]; simpl.
  - constructor.
  - destruct (p x); [now constructor | exact IH].
  - destruct (p x), (p y); try reflexivity. apply perm_swap.
  - now transitivity (List.filter p l2).
Qed.

Lemma bucket_perm {V} h (l1 l2 : list (Timestamp * V)) :
  Permutation l1 l2 -> Permutation (bucket h l1) (bucket h l2).
Proof. apply filter_perm. Qed.


Lemma valid_rows_In {V} (ix : list (option Timestamp * V)) t v :
  In (t, v) (valid_rows ix) <-> In (Some t, v) ix.
Proof.
  unfold valid_rows. rewrite <- !list_elem_of_In, list_elem_of_omap. split.
  - intros ([o v'] & Hin & Heq). simpl in Heq.
    destruct o; [| discriminate]. now inversion Heq; subst.
  - intros Hin. exists (Some t, v). split; [exact Hin | reflexivity].
Qed.

Lemma resample_H_empty : resample_H [] = Ok [].
Proof. reflexivity. Qed.

(** An index with rows but without a single valid timestamp makes
    [resample] fail. *)
Lemma resample_H_all_NaT (ix : Indexed) :
  ix <> [] -> valid_rows ix = [] -> resample_H ix = Raise AttributeError.
Proof.
  intros Hne Hv. unfold resample_H.
  destruct ix; [contradiction | now rewrite Hv].
Qed.

(** With a valid timestamp in the index, [resample("H")] returns one bin for
    every hour of the grid, holding the rows of that hour. *)
Lemma resample_H_valid (ix : Indexed) :
  valid_rows ix <> [] ->
  resample_H ix
  = Ok (map (fun h => (h, bucket h (sort_index (valid_rows ix))))
          (hours_of (map fst (valid_rows ix)))).
Proof.
  intros Hne. unfold resample_H.
  destruct ix as [| i ix]; [contradiction |].
  destruct (valid_rows (i :: ix)) as [| x xs]; [contradiction |].
  set (rows := x :: xs) in *.
  pose proof (sort_index_perm rows) as Hp.
  rewrite (hours_of_perm _ _ (Permutation_map fst Hp)).
  destruct (map fst (sort_index rows)) as [| t ts] eqn:Hts.
  - apply map_eq_nil in Hts. rewrite Hts in Hp.
    symmetry in Hp. apply Permutation_nil in Hp. discriminate.
  - rewrite (time_bins_buckets _ t ts Hts (sort_index_sorted rows)).
    reflexivity.
Qed.

Section Resampling.

Context {B : Backend}.

Lemma hourly_empty : hourly [] = Ok [].
Proof. reflexivity. Qed.

Lemma hourly_all_NaT df :
  df <> [] -> valid_rows (set_index df) = [] -> hourly df = Raise AttributeError.
Proof.
  intros Hne Hv. unfold hourly. rewrite resample_H_all_NaT; [reflexivity | | exact Hv].
  destruct df; [contradiction | discriminate].
Qed.

(** The table returned for a frame with a valid timestamp: for every hour
    of the grid, the means over the rows of that hour, in time order. *)
Lemma hourly_valid df :
  valid_rows (set_index df) <> [] ->
  hourly df
  = Ok (map (fun h => mean_record (h, bucket h (rows_in_time_order df)))
          (hours_of (map fst (valid_rows (set_index df))))).
Proof.
  intros Hne. unfold hourly. rewrite resample_H_valid by exact Hne.
  rewrite map_map. reflexivity.
Qed.

Lemma rows_in_time_order_In df x :
  In x (rows_in_time_order df) <-> In x (valid_rows (set_index df)).
Proof.
  unfold rows_in_time_order. split; intros H.
  - now apply (Permutation_in _ (Permutation_sym (sort_index_perm _))).
  - now apply (Permutation_in _ (sort_index_perm _)).
Qed.

(** A row of the frame has a valid index entry exactly when its "Datetime"
    cell parses. *)
Lemma valid_rows_set_index df t v :
  In (t, v) (valid_rows (set_index df)) <->
  exists r, In r df /\ to_datetime (raw_Datetime r) = Some t
            /\ v = (fun c => of_float (to_numeric (column c r))).
Proof.
  rewrite valid_rows_In. unfold set_index. rewrite in_map_iff.
  split.
  - intros (r & Heq & Hin). inversion Heq. eauto.
  - intros (r & Hin & Ht & ->). exists r. now rewrite Ht.
Qed.

End Resampling.

(** ** The hourly table *)

Lemma StronglySorted_map {A B} (R : B -> B -> Prop) (f : A -> B) (l : list A) :
  StronglySorted (fun a b => R (f a) (f b)) l <-> StronglySorted R (map f l).
Proof.
  induction l as [| x l IH]; simpl.
  - split; constructor.
  - split; intros H; inversion H as [| ? ? Hs Hx]; subst; constructor;
      try (now apply IH).
    + rewrite List.Forall_forall in *. intros y Hy.
      apply in_map_iff in Hy as (a & <- & Ha). auto.
    + rewrite List.Forall_forall in *. intros a Ha. apply Hx. now apply in_map.
Qed.

Lemma StronglySorted_lt_NoDup (l : list Z) : StronglySorted Z.lt l -> List.NoDup l.
Proof.
  induction 1 as [| x l Hs IH Hx]; constructor; [| exact IH].
  intros Hin. rewrite List.Forall_forall in Hx. specialize (Hx x Hin). lia.
Qed.

Lemma omap_id_map {A B} (f : A -> option B) (l : list A) :
  omap id (map f l) = omap f l.
Proof.
  induction l as [| x l IH]; [reflexivity |].
  cbn [map omap list_omap]. unfold id at 1.
  destruct (f x); cbn; now rewrite <- IH.
Qed.

Section Hourly.

Context {B : Backend}.

Lemma timestamps_valid_rows df : timestamps df = map fst (valid_rows (set_index df)).
Proof.
  unfold timestamps, valid_rows, set_index.
  induction df as [| r df IH]; [reflexivity |].
  cbn [map omap list_omap fst snd].
  destruct (to_datetime (raw_Datetime r)); cbn [map fst]; now rewrite IH.
Qed.

Lemma timestamps_In df t :
  In t (timestamps df) <-> exists r, In r df /\ to_datetime (raw_Datetime r) = Some t.
Proof.
  unfold timestamps.
  rewrite <- list_elem_of_In, list_elem_of_omap.
  setoid_rewrite list_elem_of_In. reflexivity.
Qed.

(** Whatever table [hourly] returns is the table of the hourly grid. *)
Lemma hourly_Ok df out :
  hourly df = Ok out ->
  out = map (fun h => mean_record (h, bucket h (rows_in_time_order df)))
          (hours_of (timestamps df)).
Proof.
  intros H. rewrite timestamps_valid_rows.
  destruct (valid_rows (set_index df)) as [| x xs] eqn:E.
  - destruct df as [| r df].
    + rewrite hourly_empty in H. now inversion H.
    + rewrite hourly_all_NaT in H; [discriminate | discriminate | exact E].
  - rewrite hourly_valid in H by (rewrite E; discriminate).
    rewrite E in H. now inversion H.
Qed.

Lemma hourly_Datetimes df out :
  hourly df = Ok out -> map Datetime out = hours_of (timestamps df).
Proof.
  intros H. rewrite (hourly_Ok _ _ H), map_map. cbn [mean_record Datetime fst].
  apply map_id.
Qed.

Lemma hourly_Datetimes_NoDup df out :
  hourly df = Ok out -> List.NoDup (map Datetime out).
Proof.
  intros H. rewrite (hourly_Datetimes _ _ H).
  apply StronglySorted_lt_NoDup, hours_of_sorted.
Qed.

End Hourly.

(** ** The resampler *)

Section ResamplerProperties.

Context {B : Backend}.

(** C7. Whatever the order of the loaded rows, the records of the returned
    table are strictly ascending by [Datetime]; in particular no two records
    carry the same hour. *)
Theorem hourly_strictly_ascending (df : list RawReading) (out : list HourlyRecord) :
  hourly df = Ok out ->
  StronglySorted (fun a b => Datetime a < Datetime b) out
  /\ List.NoDup (map Datetime out).
Proof.
  intros H. split.
  - apply (@StronglySorted_map HourlyRecord Timestamp Z.lt Datetime).
    rewrite (hourly_Datetimes _ _ H).
    apply hours_of_sorted.
  - apply (hourly_Datetimes_NoDup _ _ H).
Qed.

(** C1, amended.  The table holds exactly one record for every calendar hour
    from the hour of the earliest valid timestamp to the hour of the latest
    one, both included; a record of an hour without any row has all seven
    channels missing. *)
Theorem one_record_per_hour_of_span (df : list RawReading) (out : list HourlyRecord) :
  hourly df = Ok out ->
  List.NoDup (map Datetime out)
  /\ (forall h, In h (map Datetime out) <->
        h mod ns_per_hour = 0
        /\ exists t1 t2, In t1 (timestamps df) /\ In t2 (timestamps df)
                         /\ floor_hour t1 <= h <= floor_hour t2)
  /\ (forall rec, In rec out ->
        (forall t, In t (timestamps df) -> floor_hour t <> Datetime rec) ->
        forall c, hcell c rec = None).
Proof.
  intros H. split; [apply (hourly_Datetimes_NoDup _ _ H) |]. split.
  - intros h. rewrite (hourly_Datetimes _ _ H). apply hours_of_In.
  - intros rec Hrec Hempty c.
    rewrite (hourly_Ok _ _ H) in Hrec.
    apply in_map_iff in Hrec as (h & <- & _).
    rewrite hcell_mean_record. cbn [snd fst mean_record Datetime] in *.
    replace (bucket h (rows_in_time_order df)) with
      (@nil (Timestamp * (channel -> option float))); [reflexivity |].
    symmetry. apply filter_none. intros x Hx.
    apply Z.eqb_neq. apply Hempty.
    rewrite timestamps_valid_rows. apply in_map.
    now apply rows_in_time_order_In.
Qed.

(** C4. Two rows with valid timestamps are in the same bin exactly when
    their timestamps have the same hour start; each such row is in a bin, and
    the record of its bin carries that hour start, an hour boundary. *)
Theorem rows_grouped_by_hour (df : list RawReading)
    (bins : list (Timestamp * list (Timestamp * (channel -> option float))))
    (x1 x2 : Timestamp * (channel -> option float)) :
  resample_H (set_index df) = Ok bins ->
  In x1 (valid_rows (set_index df)) ->
  In x2 (valid_rows (set_index df)) ->
  hourly df = Ok (map mean_record bins)
  /\ ((exists b, In b bins /\ In x1 (snd b) /\ In x2 (snd b))
      <-> floor_hour (fst x1) = floor_hour (fst x2))
  /\ (exists b, In b bins /\ In x1 (snd b))
  /\ (forall b, In b bins -> In x1 (snd b) ->
        Datetime (mean_record b) = floor_hour (fst x1)
        /\ Datetime (mean_record b) mod ns_per_hour = 0).
Proof.
  intros H H1 H2.
  assert (Hne : valid_rows (set_index df) <> []) by (intros E; now rewrite E in H1).
  split; [unfold hourly; now rewrite H |].
  rewrite resample_H_valid in H by exact Hne. inversion H as [Hbins]. clear H.
  set (rows := valid_rows (set_index df)) in *.
  assert (Hin : forall h x, In x (bucket h (sort_index rows))
                            <-> In x rows /\ floor_hour (fst x) = h).
  { intros h x. rewrite bucket_In. split; intros [Hx Hh]; split; try exact Hh.
    - now apply (Permutation_in _ (Permutation_sym (sort_index_perm rows))).
    - now apply (Permutation_in _ (sort_index_perm rows)). }
  assert (Hhour : forall x, In x rows -> In (floor_hour (fst x)) (hours_of (map fst rows))).
  { intros x Hx. apply hours_of_In. split; [apply floor_hour_boundary |].
    exists (fst x), (fst x). split; [now apply in_map |].
    split; [now apply in_map | lia]. }
  split; [| split].
  - split.
    + intros (b & Hb & Hb1 & Hb2).
      apply in_map_iff in Hb as (h & <- & _). cbn [snd] in *.
      apply Hin in Hb1 as [_ ->]. apply Hin in Hb2 as [_ ->]. reflexivity.
    + intros Heq. eexists. split; [apply in_map, (Hhour x1 H1) |].
      cbn [snd]. split; apply Hin; auto.
  - eexists. split; [apply in_map, (Hhour x1 H1) |]. cbn [snd]. now apply Hin.
  - intros b Hb Hb1. apply in_map_iff in Hb as (h & <- & Hh).
    cbn [snd fst mean_record Datetime] in *.
    apply Hin in Hb1 as [_ <-]. split; [reflexivity | apply floor_hour_boundary].
Qed.

(** C5, amended.  Every cell of the table is the binary64 mean of its
    channel over the rows of its hour, taken in time order: the valid values
    are added one after the other and the sum is divided by their number,
    each operation rounded; the cell is a number or missing, never [NaN].
    It is missing when every value of the channel in the hour is missing.
    Three values 10, 20, 30 give exactly 20; 0.1 and 0.2 give
    0.15000000000000002. *)
Theorem cell_is_float_mean_of_bucket (df : list RawReading) (out : list HourlyRecord)
    (rec : HourlyRecord) (c : channel) :
  hourly df = Ok out ->
  In rec out ->
  hcell c rec
  = mean (map (fun x => snd x c) (bucket (Datetime rec) (rows_in_time_order df)))
  /\ (forall m, hcell c rec = Some m -> is_nan m = false)
  /\ ((forall r t, In r df ->
         to_datetime (raw_Datetime r) = Some t ->
         floor_hour t = Datetime rec ->
         is_nan (to_numeric (column c r)) = true) ->
      hcell c rec = None)
  /\ mean [Some 10%float; Some 20%float; Some 30%float] = Some 20%float
  /\ mean [Some 0x1.999999999999ap-4%float; Some 0x1.999999999999ap-3%float]
     = Some 0x1.3333333333334p-3%float.
Proof.
  intros H Hrec.
  rewrite (hourly_Ok _ _ H) in Hrec.
  apply in_map_iff in Hrec as (h & <- & _).
  rewrite hcell_mean_record. cbn [snd fst mean_record Datetime].
  split; [reflexivity |]. split; [intros m; apply mean_not_nan |].
  split; [| split; vm_compute; reflexivity].
  intros Hall. apply mean_all_missing. intros o Ho.
  apply in_map_iff in Ho as ([t v] & <- & Hx). cbn [snd].
  apply bucket_In in Hx as [Hx Hh]. cbn [fst] in Hh.
  apply rows_in_time_order_In, valid_rows_set_index in Hx as (r & Hr & Ht & ->).
  unfold of_float. now rewrite (Hall r t Hr Ht Hh).
Qed.

(** *** The order of the rows *)





End ResamplerProperties.

(** ** The loader *)

Section LoaderProperties.

Context {B : Backend}.

Implicit Types (w : World) (table : list RawReading).

Lemma lookup_new_connection (conns : list bool) (c : bool) :
  (conns ++ [c]) !! length conns = Some c.
Proof. induction conns as [| x conns IH]; [reflexivity | exact IH]. Qed.

Lemma close_new_connection (conns : list bool) (c : bool) :
  <[length conns := false]> (conns ++ [c]) = conns ++ [false].
Proof.
  induction conns as [| x conns IH]; [reflexivity |].
  cbn. f_equal. exact IH.
Qed.

(** The three ways a call of [load_data] can go. *)
Lemma load_data_run w :
  load_data w
  = match db_openable w, power_consumption w with
    | false, _ => (Raise OperationalError, w)
    | true, None =>
        (Raise DatabaseError,
         {| db_openable := true; power_consumption := None;
            connections := connections w ++ [true] |})
    | true, Some table =>
        (hourly (query table),
         {| db_openable := true; power_consumption := Some table;
            connections := connections w ++ [false] |})
    end.
Proof.
  destruct w as [openable tbl conns].
  unfold load_data, bind, connect, read_sql, close, raise_from.
  cbn [db_openable power_consumption connections].
  destruct openable; [| reflexivity].
  cbn [db_openable power_consumption connections].
  rewrite lookup_new_connection.
  destruct tbl as [table |]; [| reflexivity].
  cbn [db_openable power_consumption connections].
  now rewrite close_new_connection.
Qed.

(** C3, amended.  When the store opens and the query succeeds, the
    connection made by the call is closed when [load_data] returns, also when
    the resampling raises afterwards.  When the query fails, the error
    propagates and that connection is still open. *)
Theorem connection_closed_when_query_succeeds w :
  db_openable w = true ->
  (forall table, power_consumption w = Some table ->
     fst (load_data w) = hourly (query table)
     /\ connections (snd (load_data w)) = connections w ++ [false])
  /\ (power_consumption w = None ->
      fst (load_data w) = Raise DatabaseError
      /\ connections (snd (load_data w)) = connections w ++ [true]).
Proof.
  intros Hopen. rewrite load_data_run, Hopen. split.
  - intros table ->. split; reflexivity.
  - intros ->. split; reflexivity.
Qed.

(** *** The query *)

Hypothesis sql_leb_total : forall a b, sql_leb a b = true \/ sql_leb b a = true.
Hypothesis sql_leb_trans :
  forall a b c, sql_leb a b = true -> sql_leb b c = true -> sql_leb a c = true.

Lemma insert_desc_perm r table : Permutation (r :: table) (insert_desc r table).
Proof.
  induction table as [| x l IH]; simpl; [reflexivity |].
  destruct (sql_leb (raw_Datetime x) (raw_Datetime r)); [reflexivity |].
  rewrite perm_swap. now apply perm_skip.
Qed.

Lemma order_by_perm table : Permutation table (order_by_Datetime_desc table).
Proof.
  induction table as [| x l IH]; simpl; [constructor |].
  rewrite <- insert_desc_perm. now apply perm_skip.
Qed.

Lemma insert_desc_sorted r table :
  StronglySorted newer_first table -> StronglySorted newer_first (insert_desc r table).
Proof.
  induction 1 as [| x l Hs IH Hx]; simpl.
  - repeat constructor.
  - destruct (sql_leb (raw_Datetime x) (raw_Datetime r)) eqn:E.
    + constructor; [now constructor |].
      constructor; [exact E |].
      eapply List.Forall_impl; [| exact Hx].
      unfold newer_first in *. intros y Hy. eapply sql_leb_trans; eauto.
    + assert (Hxr : newer_first x r).
      { unfold newer_first. destruct (sql_leb_total (raw_Datetime r) (raw_Datetime x));
          congruence. }
      constructor; [exact IH |].
      rewrite <- insert_desc_perm. constructor; [exact Hxr | exact Hx].
Qed.

Lemma order_by_sorted table : StronglySorted newer_first (order_by_Datetime_desc table).
Proof.
  induction table; simpl; [constructor | now apply insert_desc_sorted].
Qed.

Lemma sorted_prefix_first (l1 l2 : list RawReading) :
  StronglySorted newer_first (l1 ++ l2) ->
  forall a b, In a l1 -> In b l2 -> newer_first a b.
Proof.
  induction l1 as [| x l1 IH]; simpl; intros Hs a b Ha Hb; [contradiction |].
  inversion Hs as [| ? ? Hs' Hx]; subst.
  destruct Ha as [-> | Ha]; [| now apply IH].
  rewrite List.Forall_forall in Hx. apply Hx, in_or_app. now right.
Qed.

(** C8. On a table of more than 10,000 readings the query returns exactly
    10,000 rows, and they are the rows with the greatest "Datetime" values:
    the table splits into the returned rows and older ones, none of which
    sorts above a returned row.  The table returned by [load_data] is
    computed from the returned rows alone. *)
Theorem query_returns_most_recent w table :
  (LIMIT < length table)%nat ->
  db_openable w = true ->
  power_consumption w = Some table ->
  length (query table) = LIMIT
  /\ Z.of_nat LIMIT = 10000
  /\ (exists older,
        Permutation table (query table ++ older)
        /\ forall a b, In a (query table) -> In b older ->
             sql_leb (raw_Datetime b) (raw_Datetime a) = true)
  /\ bind connect read_sql w
     = (Ok (query table),
        {| db_openable := true; power_consumption := Some table;
           connections := connections w ++ [true] |})
  /\ fst (load_data w) = hourly (query table).
Proof.
  intros Hlen Hopen Htable.
  split; [| split; [| split; [| split]]].
  - unfold query. rewrite length_firstn, <- (Permutation_length (order_by_perm table)).
    lia.
  - reflexivity.
  - exists (skipn LIMIT (order_by_Datetime_desc table)). split.
    + unfold query. rewrite firstn_skipn. apply order_by_perm.
    + apply sorted_prefix_first. unfold query. rewrite firstn_skipn.
      apply order_by_sorted.
  - destruct w as [openable tbl conns]. cbn in Hopen, Htable. subst.
    unfold bind, connect, read_sql.
    cbn [db_openable power_consumption connections].
    now rewrite lookup_new_connection.
  - now rewrite load_data_run, Hopen, Htable.
Qed.

(** *** The stored order of the rows *)




End LoaderProperties.

(** ** The dashboard page *)

Lemma select_rows_filter {A} (p : A -> bool) (l : list A) :
  select_rows (map p l) l = List.filter p l.
Proof.
  unfold select_rows. induction l as [| x l IH]; [reflexivity |].
  cbn [map combine List.filter fst]. destruct (p x); cbn [map snd]; now rewrite IH.
Qed.

Lemma getitem_mask_records p f : records (getitem_mask p f) = List.filter p (records f).
Proof. apply select_rows_filter. Qed.

(** The mask keeps a record when its calendar date is on or after the start
    date and its timestamp is not after midnight at the start of the end
    date. *)
Lemma date_mask_spec start_date end_date r :
  date_mask start_date end_date r = true
  <-> start_date <= date (Datetime r)
      /\ Datetime r <= Timestamp_of_date end_date.
Proof.
  unfold date_mask, Timestamp_of_date, date.
  rewrite andb_true_iff, !Z.leb_le.
  assert (0 < ns_per_day) by reflexivity.
  split; intros [H1 H2]; (split; [| exact H2]).
  - apply Z.div_le_lower_bound; lia.
  - pose proof (Z.mul_div_le (Datetime r) ns_per_day). nia.
Qed.

Lemma alloc_spec f s :
  heap s !! fst (alloc f s) = None
  /\ heap (snd (alloc f s)) = <[fst (alloc f s) := f]> (heap s)
  /\ cache (snd (alloc f s)) = cache s.
Proof.
  unfold alloc. cbn [fst snd heap cache]. split; [| split; reflexivity].
  apply not_elem_of_dom. apply is_fresh.
Qed.

Lemma alloc_preserves f s l g :
  heap s !! l = Some g -> heap (snd (alloc f s)) !! l = Some g.
Proof.
  intros Hl. destruct (alloc_spec f s) as (Hfresh & -> & _).
  rewrite lookup_insert_ne; [exact Hl | congruence].
Qed.

(** The dashboard page writes to the filtered copy only. *)
Lemma dashboard_preserves start_date end_date df s l g :
  heap s !! l = Some g ->
  heap (dashboard start_date end_date df s) !! l = Some g.
Proof.
  intros Hl. unfold dashboard.
  destruct (heap s !! df) as [f |]; [| exact Hl].
  set (copy := getitem_mask (date_mask start_date end_date) f).
  pose proof (alloc_spec copy s) as (Hfresh & Hheap & _).
  pose proof (alloc_preserves copy s l g Hl) as Hl1.
  destruct (alloc copy s) as [filtered_df s1]. cbn [fst snd] in *.
  destruct (heap s1 !! filtered_df) as [g' |]; [| exact Hl1].
  destruct (records g'); [exact Hl1 |].
  cbn [heap]. rewrite lookup_insert_ne; [exact Hl1 | congruence].
Qed.

Lemma dashboard_cache start_date end_date df s :
  cache (dashboard start_date end_date df s) = cache s.
Proof.
  unfold dashboard.
  destruct (heap s !! df) as [f |]; [| reflexivity].
  set (copy := getitem_mask (date_mask start_date end_date) f).
  pose proof (alloc_spec copy s) as (_ & _ & Hc).
  destruct (alloc copy s) as [filtered_df s1]. cbn [fst snd] in *.
  destruct (heap s1 !! filtered_df) as [g' |]; [| exact Hc].
  destruct (records g'); exact Hc.
Qed.

Section ScriptProperties.

Context {B : Backend}.

Lemma cached_load_data_cache (w w' : World) (s s0 : Session) table :
  cached_load_data w s = (Ok table, w', s0) ->
  cache s0 = Some table
  /\ heap s0 = heap s
  /\ (forall cached, cache s = Some cached -> table = cached).
Proof.
  unfold cached_load_data. destruct (cache s) as [cached |] eqn:Hc.
  - intros H. inversion H; subst. repeat split; auto. congruence.
  - destruct (load_data w) as [[t | e] w1]; intros H; inversion H; subst.
    repeat split. discriminate.
Qed.

(** C10. After a run of the script, dashboard page included, the table
    bound to [df] is the cached table with its eight columns and its
    values, the cached value is the one that was cached before the run (if
    any), and every DataFrame that existed before is unchanged. *)
Theorem predicted_column_leaves_table_unchanged
    (p : page) (start_date end_date : Z) (w w' : World) (s s' : Session) (df : nat) :
  run_script p start_date end_date w s = (Ok df, w', s') ->
  exists table,
    cache s' = Some table
    /\ heap s' !! df = Some (frame_of table)
    /\ columns (frame_of table)
       = ["Datetime"; "Global_active_power"; "Global_reactive_power"; "Voltage";
          "Global_intensity"; "Sub_metering_1"; "Sub_metering_2";
          "Sub_metering_3"]%string
    /\ (forall cached, cache s = Some cached -> table = cached)
    /\ (forall l g, heap s !! l = Some g -> heap s' !! l = Some g).
Proof.
  unfold run_script.
  destruct (cached_load_data w s) as [[[table | e] w1] s0] eqn:Hload;
    [| discriminate].
  destruct (cached_load_data_cache _ _ _ _ _ Hload) as (Hc0 & Hh0 & Hsame).
  pose proof (alloc_spec (frame_of table) s0) as (Hfresh & Hheap & Hcache).
  pose proof (alloc_preserves (frame_of table) s0) as Hkeep.
  destruct (alloc (frame_of table) s0) as [df0 s1]. cbn [fst snd] in *.
  assert (Hdf : heap s1 !! df0 = Some (frame_of table)).
  { rewrite Hheap. apply lookup_insert_eq. }
  intros Hrun. exists table.
  destruct p.
  - destruct (default_start_date table), (default_end_date table);
      try discriminate.
    inversion Hrun; subst; clear Hrun.
    rewrite dashboard_cache. repeat split; try congruence.
    + now apply dashboard_preserves.
    + exact Hsame.
    + intros l g Hl. apply dashboard_preserves, Hkeep. now rewrite Hh0.
  - inversion Hrun; subst; clear Hrun.
    repeat split; try congruence.
    + exact Hsame.
    + intros l g Hl. apply Hkeep. now rewrite Hh0.
Qed.

End ScriptProperties.

(** ** Worked examples on the text store *)

Lemma string_leb_trans (a b c : string) :
  String.leb a b = true -> String.leb b c = true -> String.leb a c = true.
Proof.
  unfold String.leb. revert b c.
  induction a as [| x a IH]; intros [| y b] [| z c]; cbn; try easy.
  unfold Ascii.compare.
  destruct (N.compare_spec (N_of_ascii x) (N_of_ascii y)) as [E1 | L1 | G1];
    destruct (N.compare_spec (N_of_ascii y) (N_of_ascii z)) as [E2 | L2 | G2];
    destruct (N.compare_spec (N_of_ascii x) (N_of_ascii z)) as [E3 | L3 | G3];
    try easy; try (exfalso; lia).
  apply IH.
Qed.

(** The scenario of the specification: hour 10:00 with mean 2, hour 11:00
    with mean 5. *)
Example scenario_table :
  TextStore.hourly TextStore.scenario
  = Ok [record_at (TextStore.at_time "2007-01-01 10:00:00") (Some 2%float);
        record_at (TextStore.at_time "2007-01-01 11:00:00") (Some 5%float)].
Proof. vm_compute. reflexivity. Qed.

(** C1, counterexample.  With readings at 10:05 and 12:10 only, the table
    has a record for 11:00, an hour that holds no reading. *)
Lemma resample_fills_empty_hours :
  TextStore.hourly TextStore.gap_rows
  = Ok [record_at (TextStore.at_time "2007-01-01 10:00:00") (Some 1%float);
        empty_record_at (TextStore.at_time "2007-01-01 11:00:00");
        record_at (TextStore.at_time "2007-01-01 12:00:00") (Some 5%float)]
  /\ ~ (exists t, In t (timestamps TextStore.gap_rows)
                  /\ floor_hour t = TextStore.at_time "2007-01-01 11:00:00").
Proof.
  split; [vm_compute; reflexivity |].
  intros (t & Ht & Hh). vm_compute in Ht.
  destruct Ht as [<- | [<- | []]]; vm_compute in Hh; discriminate.
Qed.

Lemma one_record_per_hour_of_span_witness :
  TextStore.hourly TextStore.gap_rows
  = Ok [record_at (TextStore.at_time "2007-01-01 10:00:00") (Some 1%float);
        empty_record_at (TextStore.at_time "2007-01-01 11:00:00");
        record_at (TextStore.at_time "2007-01-01 12:00:00") (Some 5%float)]
  /\ List.NoDup
       (map Datetime
          [record_at (TextStore.at_time "2007-01-01 10:00:00") (Some 1%float);
           empty_record_at (TextStore.at_time "2007-01-01 11:00:00");
           record_at (TextStore.at_time "2007-01-01 12:00:00") (Some 5%float)]).
Proof.
  split; [vm_compute; reflexivity |].
  apply (one_record_per_hour_of_span (B := TextStore.backend) TextStore.gap_rows).
  vm_compute. reflexivity.
Defined.

(** C2.  With readings at 00:10 and 01:20 of one day, and that day as start
    and end date (the defaults of the two date inputs), the filter keeps the
    record of 00:00 only, although the record of 01:00 is of the same day. *)
Theorem date_filter_drops_rest_of_end_day :
  TextStore.hourly TextStore.one_day_rows
  = Ok [record_at (TextStore.at_time "2007-01-01 00:00:00") (Some 1%float);
        record_at (TextStore.at_time "2007-01-01 01:00:00") (Some 2%float)]
  /\ date (TextStore.at_time "2007-01-01 00:00:00") = TextStore.new_year
  /\ date (TextStore.at_time "2007-01-01 01:00:00") = TextStore.new_year
  /\ records
       (getitem_mask (date_mask TextStore.new_year TextStore.new_year)
          (frame_of
             [record_at (TextStore.at_time "2007-01-01 00:00:00") (Some 1%float);
              record_at (TextStore.at_time "2007-01-01 01:00:00") (Some 2%float)]))
     = [record_at (TextStore.at_time "2007-01-01 00:00:00") (Some 1%float)].
Proof. repeat split; vm_compute; reflexivity. Qed.

(** C3, counterexample.  When the table is absent the query fails, and
    [load_data] returns with the error while its connection is open. *)
Lemma connection_left_open_on_query_failure :
  TextStore.load_data TextStore.absent_table
  = (Raise DatabaseError, @Build_World TextStore.backend true None [true])
  /\ connections (snd (TextStore.load_data TextStore.absent_table)) !! 0%nat
     = Some true.
Proof. split; reflexivity. Qed.

Lemma connection_closed_when_query_succeeds_witness :
  db_openable (TextStore.store TextStore.scenario) = true
  /\ fst (TextStore.load_data (TextStore.store TextStore.scenario))
     = TextStore.hourly (query TextStore.scenario)
  /\ connections (snd (TextStore.load_data (TextStore.store TextStore.scenario)))
     = [false].
Proof.
  split; [reflexivity |].
  apply (connection_closed_when_query_succeeds (B := TextStore.backend)
           (TextStore.store TextStore.scenario) eq_refl).
  reflexivity.
Defined.

Lemma rows_grouped_by_hour_witness :
  exists bins,
    resample_H (set_index TextStore.scenario) = Ok bins
    /\ In (TextStore.indexed (TextStore.reading "2007-01-01 10:05:00" "1.0"))
          (valid_rows (set_index TextStore.scenario))
    /\ In (TextStore.indexed (TextStore.reading "2007-01-01 10:40:00" "3.0"))
          (valid_rows (set_index TextStore.scenario))
    /\ ((exists b, In b bins
                   /\ In (TextStore.indexed (TextStore.reading "2007-01-01 10:05:00" "1.0")) (snd b)
                   /\ In (TextStore.indexed (TextStore.reading "2007-01-01 10:40:00" "3.0")) (snd b))
        <-> floor_hour (TextStore.at_time "2007-01-01 10:05:00")
            = floor_hour (TextStore.at_time "2007-01-01 10:40:00")).
Proof.
  eexists. split; [apply resample_H_valid; discriminate |].
  split; [right; right; left; reflexivity |].
  split; [right; left; reflexivity |].
  apply (rows_grouped_by_hour (B := TextStore.backend) TextStore.scenario).
  - apply resample_H_valid. discriminate.
  - right; right; left; reflexivity.
  - right; left; reflexivity.
Defined.

Lemma cell_is_float_mean_of_bucket_witness :
  TextStore.hourly TextStore.scenario
  = Ok [record_at (TextStore.at_time "2007-01-01 10:00:00") (Some 2%float);
        record_at (TextStore.at_time "2007-01-01 11:00:00") (Some 5%float)]
  /\ Some 2%float
     = mean (map (fun x => snd x Global_active_power)
               (bucket (TextStore.at_time "2007-01-01 10:00:00")
                  (rows_in_time_order TextStore.scenario))).
Proof.
  split; [vm_compute; reflexivity |].
  apply (cell_is_float_mean_of_bucket (B := TextStore.backend) TextStore.scenario
           [record_at (TextStore.at_time "2007-01-01 10:00:00") (Some 2%float);
            record_at (TextStore.at_time "2007-01-01 11:00:00") (Some 5%float)]
           (record_at (TextStore.at_time "2007-01-01 10:00:00") (Some 2%float))
           Global_active_power).
  - vm_compute. reflexivity.
  - left. reflexivity.
Defined.

(** C5, counterexample.  With readings 0.1 and 0.2 in one hour the cell is
    0.15000000000000002, which is not the exact mean of the two values. *)
Lemma float_mean_is_not_the_exact_mean :
  TextStore.hourly TextStore.tenths_rows
  = Ok [record_at (TextStore.at_time "2007-01-01 10:00:00")
          (Some 0x1.3333333333334p-3%float)]
  /\ match exact_value (TextStore.to_numeric "0.1"),
           exact_value (TextStore.to_numeric "0.2"),
           exact_value 0x1.3333333333334p-3%float with
     | Some a, Some b, Some m => ~ (m == (a + b) / 2)%Q
     | _, _, _ => False
     end.
Proof.
  split; [vm_compute; reflexivity |].
  vm_compute. intros H. discriminate H.
Qed.

(** C6.  A frame whose only reading has an unparseable timestamp makes the
    pipeline raise: the "Datetime" cell is coerced to a missing value, and
    the resampling of the index without a valid timestamp ends in an
    AttributeError, so that no table is returned. *)
Lemma unparseable_timestamps_raise :
  TextStore.hourly TextStore.bad_timestamp_rows = Raise AttributeError
  /\ ~ (exists out, TextStore.hourly TextStore.bad_timestamp_rows = Ok out)
  /\ fst (TextStore.load_data (TextStore.store TextStore.bad_timestamp_rows))
     = Raise AttributeError.
Proof.
  split; [vm_compute; reflexivity |]. split.
  - intros [out H]. vm_compute in H. discriminate.
  - vm_compute. reflexivity.
Qed.

(** The table of [dirty_rows]: the "?" cell of 10:40 is left out of the mean
    of its channel only, and the reading without a timestamp is left out. *)
Example dirty_rows_table :
  TextStore.hourly TextStore.dirty_rows
  = Ok [record_at (TextStore.at_time "2007-01-01 10:00:00") (Some 1%float)].
Proof. vm_compute. reflexivity. Qed.



Lemma hourly_strictly_ascending_witness :
  TextStore.hourly TextStore.scenario
  = Ok [record_at (TextStore.at_time "2007-01-01 10:00:00") (Some 2%float);
        record_at (TextStore.at_time "2007-01-01 11:00:00") (Some 5%float)]
  /\ StronglySorted (fun a b => Datetime a < Datetime b)
       [record_at (TextStore.at_time "2007-01-01 10:00:00") (Some 2%float);
        record_at (TextStore.at_time "2007-01-01 11:00:00") (Some 5%float)].
Proof.
  split; [vm_compute; reflexivity |].
  apply (hourly_strictly_ascending (B := TextStore.backend) TextStore.scenario).
  vm_compute. reflexivity.
Defined.

Lemma query_returns_most_recent_witness :
  (LIMIT < length TextStore.big_table)%nat
  /\ length (query TextStore.big_table) = LIMIT.
Proof.
  assert (H : (LIMIT < length TextStore.big_table)%nat).
  { unfold TextStore.big_table. rewrite repeat_length. apply Nat.lt_succ_diag_r. }
  split; [exact H |].
  apply (query_returns_most_recent (B := TextStore.backend)
           String.leb_total string_leb_trans
           (TextStore.store TextStore.big_table) TextStore.big_table H
           eq_refl eq_refl).
Defined.

Lemma predicted_column_leaves_table_unchanged_witness :
  match TextStore.run_script Dashboard TextStore.new_year TextStore.new_year
          (TextStore.store TextStore.one_day_rows) TextStore.new_session with
  | (Ok df, _, s') =>
      exists table, cache s' = Some table /\ heap s' !! df = Some (frame_of table)
  | (Raise _, _, _) => False
  end.
Proof.
  destruct (TextStore.run_script Dashboard TextStore.new_year TextStore.new_year
              (TextStore.store TextStore.one_day_rows) TextStore.new_session)
    as [[[df | e] w'] s'] eqn:E.
  - destruct (predicted_column_leaves_table_unchanged (B := TextStore.backend)
                Dashboard TextStore.new_year TextStore.new_year
                (TextStore.store TextStore.one_day_rows) w'
                TextStore.new_session s' df E) as (table & Hc & Hdf & _).
    exists table. split; [exact Hc | exact Hdf].
  - apply (f_equal (fun x => fst (fst x))) in E. vm_compute in E. discriminate.
Defined.

(** The first run of the script on the store of [one_day_rows]: the table
    bound to [df] and the cached value are the loaded table; the filtered
    copy, at another address, is the only frame with a "Predicted" column. *)
Example dashboard_run :
  let s' := snd (TextStore.run_script Dashboard TextStore.new_year TextStore.new_year
                   (TextStore.store TextStore.one_day_rows) TextStore.new_session) in
  cache s' = Some TextStore.one_day_table
  /\ heap s' !! 0%nat = Some (frame_of TextStore.one_day_table)
  /\ heap s' !! 1%nat
     = Some {| records := [record_at (TextStore.at_time "2007-01-01 00:00:00")
                             (Some 1%float)];
               assigned := [("Predicted"%string, [Some 0x1.051eb851eb852p+0%float])] |}.
Proof. vm_compute. repeat split; reflexivity. Qed.

(** * Further properties of the program *)

(** ** The query and the store *)

Lemma In_firstn_In {A} (n : nat) (l : list A) (x : A) : In x (firstn n l) -> In x l.
Proof.
  revert n. induction l as [| y l IH]; intros [| n]; cbn [firstn]; try contradiction.
  intros [-> | Hx]; [now left | right; eauto].
Qed.

Lemma StronglySorted_firstn {A} (R : A -> A -> Prop) (n : nat) (l : list A) :
  StronglySorted R l -> StronglySorted R (firstn n l).
Proof.
  intros Hs. revert n.
  induction Hs as [| x l Hs IH Hx]; intros [| n]; cbn [firstn]; try constructor.
  - apply IH.
  - rewrite List.Forall_forall in *. intros y Hy. apply Hx.
    eapply In_firstn_In; exact Hy.
Qed.

Section QueryProperties.

Context {B : Backend}.

(** X1. The query returns as many rows as the table has, up to 10,000; a
    table of at most 10,000 rows is returned whole, each row once. *)
Theorem query_length (table : list RawReading) :
  length (query table) = Nat.min LIMIT (length table)
  /\ ((length table <= LIMIT)%nat -> Permutation table (query table)).
Proof.
  unfold query. split.
  - rewrite length_firstn, <- (Permutation_length (order_by_perm table)).
    reflexivity.
  - intros Hle. rewrite firstn_all2; [apply order_by_perm |].
    now rewrite <- (Permutation_length (order_by_perm table)).
Qed.

(** X2. The rows come back newest first by the order of the store, and
    every returned row is a row of the table. *)
Theorem query_sorted_newest_first (table : list RawReading) :
  (forall a b, sql_leb a b = true \/ sql_leb b a = true) ->
  (forall a b c, sql_leb a b = true -> sql_leb b c = true -> sql_leb a c = true) ->
  StronglySorted newer_first (query table)
  /\ (forall r, In r (query table) -> In r table).
Proof.
  intros Htotal Htrans. unfold query. split.
  - apply StronglySorted_firstn. now apply order_by_sorted.
  - intros r Hr. apply In_firstn_In in Hr.
    now apply (Permutation_in _ (Permutation_sym (order_by_perm table))).
Qed.

End QueryProperties.

(** ** The bins and the table *)

Lemma generate_bins_length {V} (edges : list Timestamp) :
  forall rows : list (Timestamp * V), length (generate_bins edges rows) = length edges.
Proof.
  induction edges as [| e edges IH]; intros rows; cbn; [reflexivity |].
  now rewrite IH.
Qed.

Lemma take_while_all {A} (p : A -> bool) (l : list A) :
  (forall x, In x l -> p x = true) -> take_while p l = l.
Proof.
  induction l as [| y l IH]; intros H; cbn; [reflexivity |].
  rewrite (H y) by now left. f_equal. apply IH. intros x Hx. apply H. now right.
Qed.

Lemma In_drop_while {A} (p : A -> bool) (l : list A) (x : A) :
  In x (drop_while p l) -> In x l.
Proof.
  induction l as [| y l IH]; cbn; [auto |].
  destruct (p y); [intros Hx; right; auto | auto].
Qed.

(** When every row lies before the last edge, the bins put end to end are
    the rows. *)
Lemma generate_bins_concat {V} (edges : list Timestamp) (r_last : Timestamp) :
  forall rows : list (Timestamp * V),
    (forall x, In x rows -> fst x < r_last) ->
    concat (generate_bins (edges ++ [r_last]) rows) = rows.
Proof.
  induction edges as [| e edges IH]; intros rows Hall; cbn [app generate_bins concat].
  - rewrite app_nil_r. apply take_while_all.
    intros x Hx. apply Z.ltb_lt. auto.
  - rewrite IH; [apply take_drop_while |].
    intros x Hx. apply Hall. eapply In_drop_while; exact Hx.
Qed.

Lemma map_snd_combine {A C} (l1 : list A) (l2 : list C) :
  (length l2 <= length l1)%nat -> map snd (combine l1 l2) = l2.
Proof.
  revert l1. induction l2 as [| y l2 IH]; intros [| x l1] Hlen; cbn in *;
    try reflexivity; try lia.
  f_equal. apply IH. lia.
Qed.

Lemma time_bins_concat {V} (rows : list (Timestamp * V)) :
  concat (map snd (time_bins rows)) = rows.
Proof.
  unfold time_bins. destruct (map fst rows) as [| t ts] eqn:Hix.
  - apply map_eq_nil in Hix. now subst.
  - pose proof ns_per_hour_pos as Hpos.
    rewrite range_edges_hour, date_range_grid.
    set (mn := index_min t ts). set (mx := index_max t ts).
    assert (Hmm : floor_hour mn <= floor_hour mx).
    { apply floor_hour_mono, index_min_le, index_max_In. }
    set (d := (floor_hour mx + ns_per_hour - floor_hour mn) / ns_per_hour).
    assert (Hd : 1 <= d).
    { apply Z.div_le_lower_bound; lia. }
    assert (Hgt : d * ns_per_hour = floor_hour mx + ns_per_hour - floor_hour mn).
    { subst d. unfold floor_hour. rewrite !Z.mod_eq by lia.
      replace (mx - (mx - ns_per_hour * (mx / ns_per_hour)) + ns_per_hour
               - (mn - (mn - ns_per_hour * (mn / ns_per_hour))))
        with ((mx / ns_per_hour + 1 - mn / ns_per_hour) * ns_per_hour) by ring.
      rewrite Z.div_mul by lia. reflexivity. }
    replace (Z.to_nat (d + 1)) with (S (S (Z.to_nat (d - 1)))) by lia.
    set (n := Z.to_nat (d - 1)).
    change (seq 0 (S (S n))) with (0%nat :: seq 1 (S n)).
    cbn [map tail]. rewrite seq_S, map_app. cbn [map].
    rewrite map_snd_combine.
    + apply generate_bins_concat. intros x Hx.
      assert (fst x <= mx).
      { apply index_max_ge.
        assert (Hi : In (fst x) (map fst rows)) by now apply in_map.
        rewrite Hix in Hi. exact Hi. }
      pose proof (floor_hour_lt mx). unfold grid.
      replace (Z.of_nat (1 + n)) with d by (subst n; lia). lia.
    + rewrite generate_bins_length, length_firstn.
      cbn [length]. rewrite !length_app, !length_map, length_seq.
      cbn [length]. lia.
Qed.

Section TableProperties.

Context {B : Backend}.

(** X4. The table is empty exactly when no row was loaded, and a frame
    with rows of which none has a parseable timestamp makes the resampling
    raise an [AttributeError]. *)
Theorem hourly_outcomes (df : list RawReading) :
  hourly [] = Ok []
  /\ (forall out, hourly df = Ok out -> (out = [] <-> df = []))
  /\ (df <> [] -> timestamps df = [] -> hourly df = Raise AttributeError).
Proof.
  split; [reflexivity |]. split.
  - intros out H. split.
    + intros ->. destruct df as [| r df]; [reflexivity |]. exfalso.
      destruct (timestamps (r :: df)) as [| t ts] eqn:Ets.
      * rewrite hourly_all_NaT in H; [discriminate | discriminate |].
        rewrite timestamps_valid_rows in Ets. now apply map_eq_nil in Ets.
      * pose proof (hourly_Datetimes _ _ H) as Hd. rewrite Ets in Hd.
        assert (Hin : In (floor_hour (index_min t ts)) (hours_of (t :: ts))).
        { apply hours_of_In. split; [apply floor_hour_boundary |].
          exists (index_min t ts), (index_max t ts).
          split; [apply index_min_In |]. split; [apply index_max_In |].
          split; [lia |]. apply floor_hour_mono, index_min_le, index_max_In. }
        rewrite <- Hd in Hin. contradiction.
    + intros ->. rewrite hourly_empty in H. now inversion H.
  - intros Hne Hts. apply hourly_all_NaT; [exact Hne |].
    rewrite timestamps_valid_rows in Hts. now apply map_eq_nil in Hts.
Qed.

(** X5. The bins of [resample("H")], put end to end in the order of the
    table, are the rows with a valid timestamp in time order: every such row
    is in one bin, once. *)
Theorem bins_partition_rows (df : list RawReading)
    (bins : list (Timestamp * list (Timestamp * (channel -> option float)))) :
  resample_H (set_index df) = Ok bins ->
  concat (map snd bins) = sort_index (valid_rows (set_index df))
  /\ Permutation (concat (map snd bins)) (valid_rows (set_index df)).
Proof.
  intros H.
  assert (Hc : concat (map snd bins) = sort_index (valid_rows (set_index df))).
  { unfold resample_H in H. destruct (set_index df) as [| i ix] eqn:E.
    - inversion H. reflexivity.
    - destruct (valid_rows (i :: ix)) as [| x xs]; [discriminate |].
      inversion H. apply time_bins_concat. }
  split; [exact Hc |]. rewrite Hc. symmetry. apply sort_index_perm.
Qed.

(** X9. The records of the table are one hour apart: record number [i] is
    [i] hours after the hour of the earliest valid timestamp, and the number
    of records is the number of hours from that hour to the hour of the
    latest valid timestamp, both included. *)
Theorem hourly_regular_grid (df : list RawReading) (out : list HourlyRecord)
    (t : Timestamp) (ts : list Timestamp) :
  hourly df = Ok out ->
  timestamps df = t :: ts ->
  map Datetime out
  = map (fun i => floor_hour (index_min t ts) + Z.of_nat i * ns_per_hour)
      (seq 0 (length out))
  /\ Z.of_nat (length out)
     = (floor_hour (index_max t ts) - floor_hour (index_min t ts)) / ns_per_hour + 1.
Proof.
  intros H Hts. pose proof ns_per_hour_pos as Hpos.
  pose proof (hourly_Datetimes _ _ H) as Hd. rewrite Hts in Hd.
  cbn [hours_of] in Hd. rewrite date_range_grid in Hd.
  assert (Hlen : length out
                 = Z.to_nat ((floor_hour (index_max t ts) - floor_hour (index_min t ts))
                             / ns_per_hour + 1)).
  { rewrite <- (length_map Datetime out), Hd, length_map, length_seq. reflexivity. }
  split.
  - rewrite Hd, <- Hlen. reflexivity.
  - rewrite Hlen.
    assert (floor_hour (index_min t ts) <= floor_hour (index_max t ts)).
    { apply floor_hour_mono, index_min_le, index_max_In. }
    assert (0 <= (floor_hour (index_max t ts) - floor_hour (index_min t ts))
                 / ns_per_hour) by (apply Z.div_pos; lia).
    lia.
Qed.

End TableProperties.

(** ** One channel at a time *)

Lemma map_bucket_channel c h (rows : list (Timestamp * (channel -> option float))) :
  map (fun x => snd x c) (bucket h rows)
  = map snd (List.filter (fun y => in_hour h (fst y))
               (map (fun x => (fst x, snd x c)) rows)).
Proof.
  unfold bucket. induction rows as [| x rows IH]; [reflexivity |].
  cbn [map List.filter fst]. destruct (in_hour h (fst x)); cbn [map snd];
    now rewrite IH.
Qed.

Section ChannelProperties.

Context {B : Backend}.

Lemma valid_rows_channel c (df1 df2 : list RawReading) :
  Forall2 (fun r1 r2 =>
             to_datetime (raw_Datetime r1) = to_datetime (raw_Datetime r2)
             /\ to_numeric (column c r1) = to_numeric (column c r2)) df1 df2 ->
  map (fun x => (fst x, snd x c)) (valid_rows (set_index df1))
  = map (fun x => (fst x, snd x c)) (valid_rows (set_index df2)).
Proof.
  unfold valid_rows, set_index.
  induction 1 as [| r1 r2 df1 df2 [Ht Hc] _ IH]; [reflexivity |].
  cbn [map omap list_omap fst snd]. rewrite Ht.
  destruct (to_datetime (raw_Datetime r2)); [| exact IH].
  cbn [map fst snd]. now rewrite Hc, IH.
Qed.

Lemma insert_by_time_map {V W} (f : Timestamp * V -> Timestamp * W) :
  (forall x, fst (f x) = fst x) ->
  forall r l, map f (insert_by_time r l) = insert_by_time (f r) (map f l).
Proof.
  intros Hf r l. induction l as [| x l IH]; [reflexivity |].
  cbn [insert_by_time map]. rewrite !Hf.
  destruct (fst r <=? fst x); cbn [map]; [reflexivity | now rewrite IH].
Qed.

Lemma sort_index_map {V W} (f : Timestamp * V -> Timestamp * W) :
  (forall x, fst (f x) = fst x) ->
  forall l, map f (sort_index l) = sort_index (map f l).
Proof.
  intros Hf l. unfold sort_index. induction l as [| x l IH]; [reflexivity |].
  cbn [fold_right map]. now rewrite insert_by_time_map, IH.
Qed.

(** X8. The means of a channel depend on the timestamps and on the cells of
    that channel only: two frames that agree, row by row, on "Datetime" and
    on channel [c] give tables with the same hours and the same column [c]
    (or fail alike), whatever their other cells hold. *)
Theorem channel_means_independent (c : channel) (df1 df2 : list RawReading) :
  Forall2 (fun r1 r2 =>
             to_datetime (raw_Datetime r1) = to_datetime (raw_Datetime r2)
             /\ to_numeric (column c r1) = to_numeric (column c r2)) df1 df2 ->
  match hourly df1, hourly df2 with
  | Ok out1, Ok out2 =>
      map Datetime out1 = map Datetime out2
      /\ map (hcell c) out1 = map (hcell c) out2
  | Raise e1, Raise e2 => e1 = e2
  | _, _ => False
  end.
Proof.
  intros Hagree. pose proof (valid_rows_channel c _ _ Hagree) as Hproj.
  assert (Hts : map fst (valid_rows (set_index df1))
                = map fst (valid_rows (set_index df2))).
  { apply (f_equal (map fst)) in Hproj. now rewrite !map_map in Hproj. }
  assert (Hrows : map (fun x => (fst x, snd x c)) (rows_in_time_order df1)
                  = map (fun x => (fst x, snd x c)) (rows_in_time_order df2)).
  { unfold rows_in_time_order.
    rewrite !(sort_index_map (fun x => (fst x, snd x c))) by reflexivity.
    now rewrite Hproj. }
  destruct (valid_rows (set_index df1)) as [| x1 xs1] eqn:E1.
  - assert (E2 : valid_rows (set_index df2) = []).
    { symmetry in Hts. now apply map_eq_nil in Hts. }
    destruct Hagree as [| r1 r2 df1 df2 _ _]; [cbn; auto |].
    rewrite !hourly_all_NaT by (auto; discriminate). reflexivity.
  - assert (Hne2 : valid_rows (set_index df2) <> []).
    { intros E. rewrite E in Hts. discriminate. }
    rewrite (hourly_valid df1) by (rewrite E1; discriminate).
    rewrite (hourly_valid df2) by exact Hne2.
    rewrite E1, Hts, !map_map. cbn [mean_record Datetime fst].
    split; [reflexivity |].
    apply map_ext. intros h. rewrite !hcell_mean_record. cbn [snd].
    now rewrite !map_bucket_channel, Hrows.
Qed.

End ChannelProperties.

(** ** The date filter and the page *)

Lemma date_le_mono (a b : Timestamp) : a <= b -> date a <= date b.
Proof.
  intros Hab. unfold date. apply Z.div_le_mono; [reflexivity | exact Hab].
Qed.

(** X7. The filtered frame holds the records of the table whose calendar
    date is on or after the start date and whose timestamp is not after
    00:00 of the end date, in the order of the table; with the end date
    before the start date it is empty. *)
Theorem date_filter_keeps (start_date end_date : Z) (f : DataFrame) :
  records (getitem_mask (date_mask start_date end_date) f)
  = List.filter (date_mask start_date end_date) (records f)
  /\ (forall r, In r (records (getitem_mask (date_mask start_date end_date) f))
        <-> In r (records f)
            /\ start_date <= date (Datetime r)
            /\ Datetime r <= Timestamp_of_date end_date)
  /\ (end_date < start_date ->
      records (getitem_mask (date_mask start_date end_date) f) = []).
Proof.
  rewrite getitem_mask_records. split; [reflexivity |]. split.
  - intros r. rewrite List.filter_In, date_mask_spec. reflexivity.
  - intros Hlt. apply filter_none. intros r _.
    destruct (date_mask start_date end_date r) eqn:E; [| reflexivity].
    apply date_mask_spec in E as [H1 H2].
    apply date_le_mono in H2. unfold date, Timestamp_of_date in H2.
    rewrite Z.div_mul in H2 by discriminate.
    unfold date in H1. lia.
Qed.

(** X13. With the default dates, the date of the first and of the last
    record, the filter keeps every record of a day before the last day, and
    of the last day the record of 00:00 only. *)
Theorem default_dates_filter (df : list HourlyRecord) (s e : Z) :
  default_start_date df = Some s ->
  default_end_date df = Some e ->
  s <= e
  /\ (forall r, In r df ->
        (date_mask s e r = true
         <-> date (Datetime r) < e \/ Datetime r = Timestamp_of_date e)).
Proof.
  unfold default_start_date, default_end_date.
  destruct (map Datetime df) as [| t ts] eqn:Hd; [discriminate |].
  intros Hs He. inversion Hs; inversion He; subst s e. clear Hs He.
  split.
  - apply date_le_mono, index_min_le, index_max_In.
  - intros r Hr.
    assert (Hin : In (Datetime r) (t :: ts)).
    { assert (Hi : In (Datetime r) (map Datetime df)) by now apply in_map.
      rewrite Hd in Hi. exact Hi. }
    pose proof (date_le_mono _ _ (index_min_le t ts _ Hin)) as Hlo.
    pose proof (date_le_mono _ _ (index_max_ge t ts _ Hin)) as Hhi.
    rewrite date_mask_spec.
    set (e := date (index_max t ts)) in *.
    set (s := date (index_min t ts)) in *.
    unfold Timestamp_of_date. unfold date in Hlo, Hhi |- *.
    assert (HD : 0 < ns_per_day) by reflexivity.
    pose proof (Z.mul_div_le (Datetime r) ns_per_day HD).
    pose proof (Z.mul_succ_div_gt (Datetime r) ns_per_day HD).
    split.
    + intros [_ Hle].
      destruct (Z.eq_dec (Datetime r / ns_per_day) e) as [Heq | Hne];
        [right | left; lia].
      rewrite Heq in *. lia.
    + intros [Hlt | Heq]; (split; [exact Hlo |]); [nia | lia].
Qed.

(** X12. On a table with rows and without assigned columns, the dashboard
    page creates one DataFrame, at a new address: the filtered rows.  When
    rows remain it gets one more column, "Predicted", with the binary64
    product of the "Global_active_power" of each row by 1.02 (missing where
    that is missing); when no row remains it gets no column. *)
Theorem predicted_column_on_copy (start_date end_date : Z) (df : nat)
    (s : Session) (f : DataFrame) :
  heap s !! df = Some f ->
  assigned f = [] ->
  records f <> [] ->
  exists (filtered_df : nat) (g : DataFrame),
    heap s !! filtered_df = None
    /\ heap (dashboard start_date end_date df s) !! filtered_df = Some g
    /\ records g = List.filter (date_mask start_date end_date) (records f)
    /\ assigned g
       = match records g with
         | [] => []
         | _ :: _ =>
             [("Predicted"%string,
               map (fun r => match h_Global_active_power r with
                             | Some q => of_float (q * predicted_factor)%float
                             | None => None
                             end) (records g))]
         end.
Proof.
  intros Hdf Hnone _. unfold dashboard. rewrite Hdf.
  set (copy := getitem_mask (date_mask start_date end_date) f).
  pose proof (alloc_spec copy s) as (Hfresh & Hheap & _).
  destruct (alloc copy s) as [filtered_df s1]. cbn [fst snd] in *.
  assert (Hcopy : heap s1 !! filtered_df = Some copy).
  { rewrite Hheap. apply lookup_insert_eq. }
  rewrite Hcopy.
  assert (Hrec : records copy
                 = List.filter (date_mask start_date end_date) (records f)).
  { apply getitem_mask_records. }
  assert (Hass : assigned copy = []).
  { unfold copy, getitem_mask. cbn [assigned]. now rewrite Hnone. }
  destruct (records copy) as [| r0 rs] eqn:Erec.
  - exists filtered_df, copy. rewrite Erec.
    repeat split; auto.
  - exists filtered_df, (setitem "Predicted" (scaled_power copy) copy).
    cbn [heap records assigned setitem]. rewrite Erec, Hass.
    repeat split; auto.
    + apply lookup_insert_eq.
    + cbn [set_column]. unfold scaled_power. now rewrite Erec.
Qed.

Section CacheProperties.

Context {B : Backend}.

(** X10. In a session whose cache holds a table, a run of the script, on
    any page, with any dates and whatever the store has become, takes the
    table from the cache: it makes no connection and leaves the store as it
    is.  It binds [df] to the cached table; only on the dashboard page with
    a cached table without rows does it end in an exception, at line 65. *)
Theorem cached_rerun_skips_store (table : list HourlyRecord) (s : Session)
    (p : page) (start_date end_date : Z) (w : World) :
  cache s = Some table ->
  exists r s',
    run_script p start_date end_date w s = (r, w, s')
    /\ cache s' = Some table
    /\ ((p = Dashboard /\ table = [] /\ r = Raise DateInputError)
        \/ ((p = Dashboard -> table <> [])
            /\ exists df, r = Ok df /\ heap s' !! df = Some (frame_of table))).
Proof.
  intros Hc. unfold run_script, cached_load_data. rewrite Hc.
  pose proof (alloc_spec (frame_of table) s) as (Hfresh & Hheap & Hcache).
  destruct (alloc (frame_of table) s) as [df s1]. cbn [fst snd] in *.
  assert (Hdf : heap s1 !! df = Some (frame_of table)).
  { rewrite Hheap. apply lookup_insert_eq. }
  destruct p.
  - destruct table as [| r0 table].
    + eexists _, _. split; [reflexivity |]. split; [congruence |]. left. auto.
    + eexists _, _. split; [reflexivity |].
      split; [rewrite dashboard_cache; congruence |]. right.
      split; [discriminate |]. eexists. split; [reflexivity |].
      now apply dashboard_preserves.
  - eexists _, _. split; [reflexivity |]. split; [congruence |]. right.
    split; [discriminate |]. eexists. split; [reflexivity | exact Hdf].
Qed.

(** X11. A run of the script that raises has either failed in [load_data],
    and then the session is as it was: nothing is cached and no DataFrame
    is made, so the next run calls [load_data] again; or it has stopped at
    line 65 of the dashboard page on a table without rows, which is
    cached. *)
Theorem failed_load_not_cached (p : page) (start_date end_date : Z)
    (w w' : World) (s s' : Session) (e : exn) :
  run_script p start_date end_date w s = (Raise e, w', s') ->
  (s' = s /\ cache s = None /\ load_data w = (Raise e, w'))
  \/ (e = DateInputError /\ p = Dashboard /\ cache s' = Some []).
Proof.
  unfold run_script.
  destruct (cached_load_data w s) as [[[table | e0] w1] s0] eqn:Hload.
  - destruct (cached_load_data_cache _ _ _ _ _ Hload) as (Hc0 & _ & _).
    pose proof (alloc_spec (frame_of table) s0) as (_ & _ & Hcache).
    destruct (alloc (frame_of table) s0) as [df0 s1]. cbn [fst snd] in *.
    destruct p; [| discriminate].
    destruct table as [| r0 table]; [| discriminate].
    cbn. intros H. inversion H; subst. right. repeat split. congruence.
  - intros H. inversion H; subst. left.
    unfold cached_load_data in Hload.
    destruct (cache s) as [table |] eqn:Hc; [discriminate |].
    destruct (load_data w) as [[table | e1] w2] eqn:Hl; [discriminate |].
    inversion Hload; subst. auto.
Qed.

End CacheProperties.

(** ** Worked examples for the further properties *)

Lemma query_sorted_newest_first_witness :
  StronglySorted newer_first (query TextStore.scenario).
Proof.
  exact (proj1 (query_sorted_newest_first (B := TextStore.backend)
                  TextStore.scenario String.leb_total string_leb_trans)).
Defined.

Lemma bins_partition_rows_witness :
  exists bins,
    resample_H (set_index TextStore.scenario) = Ok bins
    /\ concat (map snd bins) = sort_index (valid_rows (set_index TextStore.scenario)).
Proof.
  eexists. split; [apply resample_H_valid; discriminate |].
  apply (bins_partition_rows (B := TextStore.backend) TextStore.scenario).
  apply resample_H_valid. discriminate.
Defined.

Lemma channel_means_independent_witness :
  match TextStore.hourly TextStore.scenario,
        TextStore.hourly (map (TextStore.with_voltage "?") TextStore.scenario) with
  | Ok out1, Ok out2 =>
      map Datetime out1 = map Datetime out2
      /\ map (hcell Global_active_power) out1 = map (hcell Global_active_power) out2
  | Raise e1, Raise e2 => e1 = e2
  | _, _ => False
  end.
Proof.
  apply (channel_means_independent (B := TextStore.backend) Global_active_power
           TextStore.scenario (map (TextStore.with_voltage "?") TextStore.scenario)).
  repeat (constructor; [split; reflexivity |]). constructor.
Defined.

(** The voltage means of the two frames of the example differ, the power
    means do not. *)
Example voltage_only_differs :
  TextStore.hourly (map (TextStore.with_voltage "?") TextStore.scenario)
  = Ok [{| Datetime := TextStore.at_time "2007-01-01 10:00:00";
           h_Global_active_power := Some 2%float;
           h_Global_reactive_power := Some 0%float;
           h_Voltage := None;
           h_Global_intensity := Some 0%float;
           h_Sub_metering_1 := Some 0%float;
           h_Sub_metering_2 := Some 0%float;
           h_Sub_metering_3 := Some 0%float |};
        {| Datetime := TextStore.at_time "2007-01-01 11:00:00";
           h_Global_active_power := Some 5%float;
           h_Global_reactive_power := Some 0%float;
           h_Voltage := None;
           h_Global_intensity := Some 0%float;
           h_Sub_metering_1 := Some 0%float;
           h_Sub_metering_2 := Some 0%float;
           h_Sub_metering_3 := Some 0%float |}].
Proof. vm_compute. reflexivity. Qed.

Lemma hourly_regular_grid_witness :
  timestamps TextStore.gap_rows
  = [TextStore.at_time "2007-01-01 12:10:00"; TextStore.at_time "2007-01-01 10:05:00"]
  /\ Z.of_nat 3
     = (floor_hour (index_max (TextStore.at_time "2007-01-01 12:10:00")
                      [TextStore.at_time "2007-01-01 10:05:00"])
        - floor_hour (index_min (TextStore.at_time "2007-01-01 12:10:00")
                        [TextStore.at_time "2007-01-01 10:05:00"]))
       / ns_per_hour + 1.
Proof.
  split; [vm_compute; reflexivity |].
  apply (hourly_regular_grid (B := TextStore.backend) TextStore.gap_rows
           [record_at (TextStore.at_time "2007-01-01 10:00:00") (Some 1%float);
            empty_record_at (TextStore.at_time "2007-01-01 11:00:00");
            record_at (TextStore.at_time "2007-01-01 12:00:00") (Some 5%float)]).
  - vm_compute. reflexivity.
  - vm_compute. reflexivity.
Defined.

Lemma default_dates_filter_witness :
  default_start_date TextStore.one_day_table = Some TextStore.new_year
  /\ default_end_date TextStore.one_day_table = Some TextStore.new_year
  /\ (date_mask TextStore.new_year TextStore.new_year
        (record_at (TextStore.at_time "2007-01-01 01:00:00") (Some 2%float)) = true
      <-> date (TextStore.at_time "2007-01-01 01:00:00") < TextStore.new_year
          \/ TextStore.at_time "2007-01-01 01:00:00"
             = Timestamp_of_date TextStore.new_year).
Proof.
  assert (H1 : default_start_date TextStore.one_day_table = Some TextStore.new_year)
    by (vm_compute; reflexivity).
  assert (H2 : default_end_date TextStore.one_day_table = Some TextStore.new_year)
    by (vm_compute; reflexivity).
  split; [exact H1 |]. split; [exact H2 |].
  apply (proj2 (default_dates_filter TextStore.one_day_table
                  TextStore.new_year TextStore.new_year H1 H2)
           (record_at (TextStore.at_time "2007-01-01 01:00:00") (Some 2%float))).
  right. left. reflexivity.
Defined.

Lemma predicted_column_on_copy_witness :
  heap TextStore.loaded_session !! 0%nat = Some (frame_of TextStore.one_day_table)
  /\ records (frame_of TextStore.one_day_table) <> []
  /\ exists filtered_df g,
       heap TextStore.loaded_session !! filtered_df = None
       /\ heap (dashboard TextStore.new_year TextStore.new_year 0 TextStore.loaded_session)
           !! filtered_df = Some g
       /\ records g
          = List.filter (date_mask TextStore.new_year TextStore.new_year)
              (records (frame_of TextStore.one_day_table))
       /\ assigned g
          = match records g with
            | [] => []
            | _ :: _ =>
                [("Predicted"%string,
                  map (fun r => match h_Global_active_power r with
                                | Some q => of_float (q * predicted_factor)%float
                                | None => None
                                end) (records g))]
            end.
Proof.
  assert (H : heap TextStore.loaded_session !! 0%nat
              = Some (frame_of TextStore.one_day_table))
    by (vm_compute; reflexivity).
  assert (Hrows : records (frame_of TextStore.one_day_table) <> [])
    by discriminate.
  split; [exact H |]. split; [exact Hrows |].
  exact (predicted_column_on_copy TextStore.new_year TextStore.new_year 0
           TextStore.loaded_session (frame_of TextStore.one_day_table)
           H eq_refl Hrows).
Defined.

(** The product is rounded to binary64: 0.1 by 1.02 is stored as
    0.10200000000000001, the double above the decimal 0.102. *)
Example predicted_is_rounded :
  of_float (0x1.999999999999ap-4 * predicted_factor)%float
  = Some 0x1.a1cac083126eap-4%float
  /\ match exact_value 0x1.a1cac083126eap-4%float with
     | Some v => (102 # 1000 < v)%Q
     | None => False
     end.
Proof. split; vm_compute; reflexivity. Qed.

Lemma cached_rerun_skips_store_witness :
  cache TextStore.loaded_session = Some TextStore.one_day_table
  /\ exists r s',
       TextStore.run_script Project_Summary 0 0 TextStore.absent_table
         TextStore.loaded_session
       = (r, TextStore.absent_table, s')
       /\ cache s' = Some TextStore.one_day_table
       /\ ((Project_Summary = Dashboard /\ TextStore.one_day_table = []
            /\ r = Raise DateInputError)
           \/ ((Project_Summary = Dashboard -> TextStore.one_day_table <> [])
               /\ exists df, r = Ok df
                    /\ heap s' !! df = Some (frame_of TextStore.one_day_table))).
Proof.
  split; [reflexivity |].
  exact (cached_rerun_skips_store (B := TextStore.backend)
           TextStore.one_day_table TextStore.loaded_session
           Project_Summary 0 0 TextStore.absent_table eq_refl).
Defined.

Lemma failed_load_not_cached_witness :
  TextStore.run_script Dashboard TextStore.new_year TextStore.new_year
    TextStore.absent_table TextStore.new_session
  = (Raise DatabaseError, @Build_World TextStore.backend true None [true],
     TextStore.new_session)
  /\ ((TextStore.new_session = TextStore.new_session
       /\ cache TextStore.new_session = None
       /\ TextStore.load_data TextStore.absent_table
          = (Raise DatabaseError, @Build_World TextStore.backend true None [true]))
      \/ (DatabaseError = DateInputError /\ Dashboard = Dashboard
          /\ cache TextStore.new_session = Some [])).
Proof.
  assert (H : TextStore.run_script Dashboard TextStore.new_year TextStore.new_year
                TextStore.absent_table TextStore.new_session
              = (Raise DatabaseError, @Build_World TextStore.backend true None [true],
                 TextStore.new_session)) by reflexivity.
  split; [exact H |].
  exact (failed_load_not_cached (B := TextStore.backend) Dashboard
           TextStore.new_year TextStore.new_year TextStore.absent_table
           (@Build_World TextStore.backend true None [true])
           TextStore.new_session TextStore.new_session DatabaseError H).
Defined.

(** On the dashboard page a table without rows stops the script at line 65,
    on the first run and on every later one. *)
Example empty_table_stops_dashboard :
  fst (fst (TextStore.run_script Dashboard 0 0 (TextStore.store [])
              TextStore.new_session))
  = Raise DateInputError
  /\ fst (fst (TextStore.run_script Dashboard 0 0 (TextStore.store [])
                 {| heap := {[ 0%nat := frame_of [] ]}; cache := Some [] |}))
     = Raise DateInputError.
Proof. split; reflexivity. Qed.
